(** * Shared-expense ledger backend: model and verification

    A shallow embedding of [backend/main.py], [backend/models.py] and
    [backend/schemas.py].

    - Amounts are Python [float]s, i.e. IEEE-754 binary64 numbers.  They are
      modelled by [spec_float] with the binary64 parameters, so that rounding
      is the real one.
    - The SQLAlchemy session is an explicit store, threaded through every
      endpoint by a small state-and-exception monad.
    - Python [dict]s built by the code are finite maps ([gmap]); Python dict
      equality is extensional, like [gmap] equality.  A dict key is an [int]
      or a [str] at run time, and keys of different types are never equal.
    - Column [user_sums] of an invoice is a JSON column ([models.py]): what
      the endpoints read from a stored invoice is the object that
      [json.loads] returns, whose keys are strings, in the order of the
      text.  The body of a request ([schemas.DataCreate]) has [int] keys.
      An invoice always has a [total] and a [user_sums], which
      [schemas.DataCreate] requires.
    - Ids are Python [int]s, i.e. unbounded integers.
    - A query for several rows returns them in the order of the primary
      key.  The keys of the dict of a request are visited in the order of
      [map_to_list]; no statement below depends on that order. *)

From Stdlib Require Import ZArith String List SpecFloat DecimalString.
From stdpp Require Import gmap strings list fin_maps sorting.

Local Open Scope Z_scope.

(** ** Python floats (binary64) *)

Module Float.
Definition prec : Z := 53.
Definition emax : Z := 1024.

Definition float : Type := spec_float.

(** [0.0], also the value of [defaultdict(float)] for a missing key. *)
Definition zero : float := S754_zero false.

(** [x + y], [x - y], [x < y] and [x == y] on floats. *)
Definition add (x y : float) : float := SFadd prec emax x y.
Definition sub (x y : float) : float := SFsub prec emax x y.
Definition ltb (x y : float) : bool := SFltb x y.
Definition eqb (x y : float) : bool := SFeqb x y.

(** [float(z)] for an integer literal. *)
Definition of_Z (z : Z) : float := binary_normalize prec emax z 0 false.

(** The literals [0.1], [0.2], [0.3] and [0.6]: the binary64 numbers
    nearest to the decimal fractions (0x3FB999999999999A,
    0x3FC999999999999A, 0x3FD3333333333333, 0x3FE3333333333333). *)
Definition lit_0_1 : float := S754_finite false 7205759403792794 (-56).
Definition lit_0_2 : float := S754_finite false 7205759403792794 (-55).
Definition lit_0_3 : float := S754_finite false 5404319552844595 (-54).
Definition lit_0_6 : float := S754_finite false 5404319552844595 (-53).
End Float.

Abbreviation float := Float.float.

(** ** Dict keys and JSON objects *)

(** A dict key at run time: an [int] or a [str].  An [int] and a [str] are
    never equal, whatever their contents. *)
Inductive key := Int (z : Z) | Str (s : string).

#[global] Instance key_eq_dec : EqDecision key.
Proof. solve_decision. Defined.

#[global] Instance key_countable : Countable key :=
  inj_countable'
    (λ k, match k with Int z => inl z | Str s => inr s end)
    (λ x, match x with inl z => Int z | inr s => Str s end)
    (λ k, match k with Int _ => eq_refl | Str _ => eq_refl end).

(** [str(z)] for an [int], which is also how [json.dumps] writes an [int]
    key. *)
Definition py_str (z : Z) : string := NilZero.string_of_int (Z.to_int z).

(** [d.get(k)] on a JSON object, given by its items in order: the value of
    the first item whose key equals [k]. *)
Fixpoint dict_get (d : list (string * float)) (k : key) : option float :=
  match d with
  | [] => None
  | (s, v) :: d' => if decide (Str s = k) then Some v else dict_get d' k
  end.

(** [json.loads(json.dumps(d))] for the dict of a request: what a JSON
    column gives back for a dict with [int] keys. *)
Definition json_roundtrip (d : gmap Z float) : list (string * float) :=
  (λ kv, (py_str kv.1, kv.2)) <$> map_to_list d.

(** ** models.py *)

Inductive ExpenseType := one_time | long_term.

(** [expense_type.value] *)
Definition ExpenseType_value (t : ExpenseType) : string :=
  match t with
  | one_time => "one_time"
  | long_term => "long_term"
  end.

Record Date := { year : Z; month : Z; day : Z }.

(** A row of table [users]; the primary key [id] is the key of the table. *)
Module User.
Record t := { name : string }.
End User.

(** A row of table [rooms].  [participants] is the relationship through the
    association table [room_participants], kept as the list of user ids in
    the order in which they were appended; [invoices] is the JSON array of
    invoice ids. *)
Module Room.
Record t := {
  name : string;
  expense_type : ExpenseType;
  invoices : list Z;
  participants : list Z
}.
End Room.

(** A row of table [data] (an invoice), as the session loads it.
    [user_sums] is [Column(JSON)]: the items of the JSON object in order,
    with the string keys that [json.loads] returns (a dict has no two items
    with the same key). *)
Module Data.
Record t := {
  name : string;
  description : option string;
  date : option Date;
  total : float;
  user_sums : list (string * float);
  creator_id : Z;
  status : bool
}.

Definition set_status (b : bool) (d : t) : t :=
  {| name := name d; description := description d; date := date d;
     total := total d; user_sums := user_sums d;
     creator_id := creator_id d; status := b |}.
End Data.

(** ** schemas.py *)

(** [schemas.DataCreate]: the body of [POST /api/invoice/].  The class
    declares exactly these six fields. *)
Module DataCreate.
Record t := {
  name : string;
  description : option string;
  date : option Date;
  total : float;
  user_sums : gmap Z float;
  creator_id : Z
}.
End DataCreate.

(** ** The store behind the session *)

Record DB := {
  users : gmap Z User.t;
  rooms : gmap Z Room.t;
  data : gmap Z Data.t
}.

Definition set_users (f : gmap Z User.t → gmap Z User.t) (db : DB) : DB :=
  {| users := f (users db); rooms := rooms db; data := data db |}.
Definition set_rooms (f : gmap Z Room.t → gmap Z Room.t) (db : DB) : DB :=
  {| users := users db; rooms := f (rooms db); data := data db |}.
Definition set_data (f : gmap Z Data.t → gmap Z Data.t) (db : DB) : DB :=
  {| users := users db; rooms := rooms db; data := f (data db) |}.

(** ** Exceptions

    [str e] stands for Python's [str(e)], the text that the catch-all
    handlers put into the detail of the exception they raise instead. *)

Inductive exn :=
  | HTTPException (status_code : Z) (detail : detail)
  | AttributeError (attr : string)
  | IntegrityError
  | InvalidRequestError
with detail :=
  | Lit (s : string)
  | str (e : exn).

(** ** State and exception monad of the endpoints *)

Definition M (A : Type) : Type := DB → (exn + A) * DB.

#[global] Instance M_ret : MRet M := λ A x db, (inr x, db).
#[global] Instance M_bind : MBind M := λ A B f m db,
  match m db with
  | (inl e, db') => (inl e, db')
  | (inr x, db') => f x db'
  end.

Definition raise {A} (e : exn) : M A := λ db, (inl e, db).

(** [try: body except Exception as e: handler e] *)
Definition try_except {A} (body : M A) (handler : exn → M A) : M A := λ db,
  match body db with
  | (inl e, db') => handler e db'
  | (inr x, db') => (inr x, db')
  end.

(** [for x in l: acc = body acc x] *)
Fixpoint for_each {A B} (l : list B) (acc : A) (body : A → B → M A) : M A :=
  match l with
  | [] => mret acc
  | x :: l' => acc' ← body acc x; for_each l' acc' body
  end.

(** [db.query(T).filter(T.id == i).first()] *)
Definition query_user (i : Z) : M (option User.t) := λ db, (inr (users db !! i), db).
Definition query_room (i : Z) : M (option Room.t) := λ db, (inr (rooms db !! i), db).
Definition query_data (i : Z) : M (option Data.t) := λ db, (inr (data db !! i), db).

(** ** main.py: rooms *)

(** The dictionary returned by [get_room]. *)
Record RoomView := {
  view_name : string;
  view_expense_type : string;
  view_participants : list Z;
  view_invoices : list Z
}.

Definition get_room (room_id : Z) : M RoomView :=
  room ← query_room room_id;
  match room with
  | None => raise (HTTPException 404 (Lit "Room not found"))
  | Some room =>
      mret {| view_name := Room.name room;
              view_expense_type := ExpenseType_value (Room.expense_type room);
              view_participants := Room.participants room;
              view_invoices := Room.invoices room |}
  end.

(** ** main.py: invoices *)

(** [f"User {user_id}"] *)
Definition default_user_name (user_id : Z) : string :=
  ("User " ++ NilZero.string_of_int (Z.to_int user_id))%string.

(** [db.add(User(id=..., name=...)); db.commit()]: column [name] of table
    [users] is declared unique. *)
Definition add_user (user_id : Z) (name : string) : M unit := λ db,
  if existsb (λ u, String.eqb (User.name u.2) name) (map_to_list (users db))
  then (inl IntegrityError, db)
  else (inr (), set_users <[user_id := {| User.name := name |}]> db).

(** The key given to a new row by the autoincrementing primary key. *)
Definition next_rowid {A} (table : gmap Z A) : Z :=
  Z.succ (fold_left Z.max (map_to_list table).*1 0).

(** [db.add(row); db.commit(); db.refresh(row)] for a new invoice. *)
Definition add_data (row : Data.t) : M Z := λ db,
  let i := next_rowid (data db) in
  (inr i, set_data <[i := row]> db).

(** [room.participants.append(user)] for every user of [users] that is not
    in it yet. *)
Definition sync_participants (users : list Z) (participants : list Z) : list Z :=
  fold_left (λ ps user, if decide (user ∈ ps) then ps else ps ++ [user])
            users participants.

Definition set_participants (room_id : Z) (ps : list Z) : M unit := λ db,
  (inr (), set_rooms (alter (λ r, {| Room.name := Room.name r;
                                     Room.expense_type := Room.expense_type r;
                                     Room.invoices := Room.invoices r;
                                     Room.participants := ps |}) room_id) db).

(** The body of the loop over [user_ids]: the user is fetched, or created
    and committed when there is none, and appended to [users]. *)
Definition ensure_user (users : list Z) (user_id : Z) : M (list Z) :=
  user ← query_user user_id;
  match user with
  | None => _ ← add_user user_id (default_user_name user_id);
            mret (users ++ [user_id])
  | Some _ => mret (users ++ [user_id])
  end.

(** [invoice.room_id] where [invoice : schemas.DataCreate]: the class
    declares no such field, so the attribute access raises. *)
Definition DataCreate_room_id (invoice : DataCreate.t) : M Z :=
  raise (AttributeError "room_id").

(** The body of [create_invoice], with the evaluation of [invoice.room_id]
    as a parameter. *)
Definition create_invoice_with (room_id_of : DataCreate.t → M Z)
    (invoice : DataCreate.t) : M (Z * Data.t) :=
  creator ← query_user (DataCreate.creator_id invoice);
  match creator with
  | None => raise (HTTPException 404 (Lit "Creator not found"))
  | Some _ =>
      let user_ids := (map_to_list (DataCreate.user_sums invoice)).*1 in
      users ← for_each user_ids [] ensure_user;
      room_id ← room_id_of invoice;
      room ← query_room room_id;
      match room with
      | None => raise (HTTPException 404 (Lit "Room not found"))
      | Some room =>
          _ ← set_participants room_id
                (sync_participants users (Room.participants room));
          let new_invoice :=
            {| Data.name := DataCreate.name invoice;
               Data.description := DataCreate.description invoice;
               Data.date := DataCreate.date invoice;
               Data.total := DataCreate.total invoice;
               Data.user_sums := json_roundtrip (DataCreate.user_sums invoice);
               Data.creator_id := DataCreate.creator_id invoice;
               Data.status := false |} in
          i ← add_data new_invoice;
          mret (i, new_invoice)
      end
  end.

Definition create_invoice (invoice : DataCreate.t) : M (Z * Data.t) :=
  create_invoice_with DataCreate_room_id invoice.

(** The handler of the endpoints wrapped in
    [try: ... except Exception as e: raise HTTPException(400, str(e))]. *)
Definition bad_request {A} (e : exn) : M A :=
  raise (HTTPException 400 (str e)).

Definition get_invoice (invoice_id : Z) : M Data.t :=
  try_except
    (invoice ← query_data invoice_id;
     match invoice with
     | None => raise (HTTPException 404 (Lit "Invoice not found"))
     | Some invoice => mret invoice
     end)
    bad_request.

Definition request_close_invoice (invoice_id : Z) : M Data.t :=
  try_except
    (invoice ← query_data invoice_id;
     match invoice with
     | None => raise (HTTPException 404 (Lit "Invoice not found"))
     | Some invoice =>
         if Data.status invoice
         then raise (HTTPException 400 (Lit "Invoice is already closed"))
         else mret invoice
     end)
    bad_request.

(** [invoice.status = True; db.commit(); db.refresh(invoice)] *)
Definition commit_status (invoice_id : Z) (invoice : Data.t) : M Data.t := λ db,
  let invoice' := Data.set_status true invoice in
  (inr invoice', set_data <[invoice_id := invoice']> db).

Definition confirm_close_invoice (invoice_id : Z) : M Data.t :=
  try_except
    (invoice ← query_data invoice_id;
     match invoice with
     | None => raise (HTTPException 404 (Lit "Invoice not found"))
     | Some invoice =>
         if Data.status invoice
         then raise (HTTPException 400 (Lit "Invoice is already closed"))
         else commit_status invoice_id invoice
     end)
    bad_request.

(** ** main.py: queries *)

Definition get_total_invoices (room_id : Z) : M float :=
  room ← query_room room_id;
  match room with
  | None => raise (HTTPException 404 (Lit "Room not found"))
  | Some room =>
      for_each (Room.invoices room) Float.zero (λ total_sum invoice_id,
        invoice ← query_data invoice_id;
        match invoice with
        | Some invoice => mret (Float.add total_sum (Data.total invoice))
        | None => mret total_sum
        end)
  end.

Definition get_balance_between_users_in_room (room_id user1_id user2_id : Z)
    : M float :=
  room ← query_room room_id;
  match room with
  | None => raise (HTTPException 404 (Lit "Room not found"))
  | Some room =>
      balances ← for_each (Room.invoices room) (Float.zero, Float.zero)
        (λ '(user1_balance, user2_balance) invoice_id,
          invoice ← query_data invoice_id;
          match invoice with
          | Some invoice =>
              let user_sums := Data.user_sums invoice in
              let user1_balance :=
                match dict_get user_sums (Int user1_id) with
                | Some amount => Float.add user1_balance amount
                | None => user1_balance
                end in
              let user2_balance :=
                match dict_get user_sums (Int user2_id) with
                | Some amount => Float.add user2_balance amount
                | None => user2_balance
                end in
              mret (user1_balance, user2_balance)
          | None => mret (user1_balance, user2_balance)
          end);
      let total_balance := Float.sub balances.1 balances.2 in
      mret total_balance
  end.

(** *** Balances in a room *)

(** [debts[a][b] += amount] on
    [defaultdict(lambda: defaultdict(float))], where [a] is a key of
    [user_sums] and [b] the id of a creator. *)
Definition debts_add (a : key) (b : Z) (amount : float)
    (debts : gmap key (gmap Z float)) : gmap key (gmap Z float) :=
  let inner := default ∅ (debts !! a) in
  <[a := <[b := Float.add (default Float.zero (inner !! b)) amount]> inner]> debts.

(** [debts.get(a, {}).get(b, 0)], where [a] and [b] are ids of
    participants, hence [int]s. *)
Definition debts_get (debts : gmap key (gmap Z float)) (a b : Z) : float :=
  default Float.zero (default ∅ (debts !! Int a) !! b).

(** The body of the loop over the invoices of the room: each user owes the
    creator their amount in [user_sums].  [user_id] is a key of the JSON
    object, a [str], and [creator_id] an [int]. *)
Definition collect_invoice (debts : gmap key (gmap Z float))
    (invoice : option Data.t) : gmap key (gmap Z float) :=
  match invoice with
  | None => debts
  | Some invoice =>
      match Data.user_sums invoice with
      | [] => debts
      | items =>
          let creator_id := Data.creator_id invoice in
          fold_left (λ debts '(user_id, amount),
                       if decide (Str user_id ≠ Int creator_id)
                       then debts_add (Str user_id) creator_id amount debts
                       else debts)
                    items debts
      end
  end.

(** The keys of [{user.id: user for user in room.participants}], in the
    order of their first occurrence. *)
Definition dict_keys (l : list Z) : list Z :=
  fold_left (λ keys k, if decide (k ∈ keys) then keys else keys ++ [k]) l [].

(** [simplified_debts[a][b] = net_amount] on [defaultdict(dict)]. *)
Definition simplified_set (a b : Z) (net_amount : float)
    (simplified_debts : gmap Z (gmap Z float)) : gmap Z (gmap Z float) :=
  <[a := <[b := net_amount]> (default ∅ (simplified_debts !! a))]> simplified_debts.

(** Simplify debts by netting reciprocal debts. *)
Definition simplify_debts (debts : gmap key (gmap Z float))
    (participants : list Z) : gmap Z (gmap Z float) :=
  fold_left (λ simplified_debts debtor_id,
    fold_left (λ simplified_debts creditor_id,
      if decide (debtor_id = creditor_id) then simplified_debts
      else
        let amount_owed := debts_get debts debtor_id creditor_id in
        let reverse_amount := debts_get debts creditor_id debtor_id in
        let net_amount := Float.sub amount_owed reverse_amount in
        if Float.ltb Float.zero net_amount
        then simplified_set debtor_id creditor_id net_amount simplified_debts
        else simplified_debts)
      participants simplified_debts)
    participants ∅.

(** Remove entries with no debts. *)
Definition remove_empty (simplified_debts : gmap Z (gmap Z float))
    : gmap Z (gmap Z float) :=
  filter (λ kv, size kv.2 ≠ 0%nat) simplified_debts.

Definition get_balances_in_room (room_id : Z) : M (gmap Z (gmap Z float)) :=
  room ← query_room room_id;
  match room with
  | None => raise (HTTPException 404 (Lit "Room not found"))
  | Some room =>
      let participants := dict_keys (Room.participants room) in
      debts ← for_each (Room.invoices room) ∅ (λ debts invoice_id,
        invoice ← query_data invoice_id;
        mret (collect_invoice debts invoice));
      mret (remove_empty (simplify_debts debts participants))
  end.

(** ** main.py: the other endpoints *)

(** [schemas.RoomUpdate], the body of [PUT /api/room/{room_id}]. *)
Module RoomUpdate.
Record t := {
  name : option string;
  expense_type : option ExpenseType;
  participant_ids : option (list Z);
  invoices : option (list Z)
}.
End RoomUpdate.

(** Assignments to the attributes of a room held in the session. *)
Definition room_set_name (name : string) (r : Room.t) : Room.t :=
  {| Room.name := name; Room.expense_type := Room.expense_type r;
     Room.invoices := Room.invoices r; Room.participants := Room.participants r |}.
Definition room_set_expense_type (t : ExpenseType) (r : Room.t) : Room.t :=
  {| Room.name := Room.name r; Room.expense_type := t;
     Room.invoices := Room.invoices r; Room.participants := Room.participants r |}.
Definition room_set_invoices (ids : list Z) (r : Room.t) : Room.t :=
  {| Room.name := Room.name r; Room.expense_type := Room.expense_type r;
     Room.invoices := ids; Room.participants := Room.participants r |}.
Definition room_set_participants (ps : list Z) (r : Room.t) : Room.t :=
  {| Room.name := Room.name r; Room.expense_type := Room.expense_type r;
     Room.invoices := Room.invoices r; Room.participants := ps |}.

(** [db.query(User).filter(User.id.in_(ids)).all()]: the ids of the rows
    found, in the order of the primary key. *)
Definition query_users_in (ids : list Z) : M (list Z) := λ db,
  (inr (filter (λ i, i ∈ ids) (merge_sort Z.le (map_to_list (users db)).*1)), db).

(** *** The session of [update_room]

    The keys of a stored [user_sums] are [str], and [update_room] hands
    them to the session as ids of users.  What the session and SQLite make
    of them is written out here, for a session made by
    [sessionmaker(autocommit=False, autoflush=False)]: it flushes at
    [db.commit()] only, and a commit expires what it holds. *)

(** What the session holds for the room that [update_room] changes: the
    room with its pending changes, the identity keys of the [User] objects
    in [db_room.participants] (the [int] id for an object read from a row,
    the [str] key for an object created with that key as its id), and the
    identity keys of the objects appended since the last flush. *)
Module Pending.
Record t := {
  room : Room.t;
  members : list key;
  changed : list key
}.
End Pending.

(** Python's [<] is defined between two [int]s and between two [str]s; it
    raises [TypeError] between an [int] and a [str]. *)
Definition same_type (a b : key) : bool :=
  match a, b with
  | Int _, Int _ | Str _, Str _ => true
  | _, _ => false
  end.

(** A flush sorts the changed users by identity key before it writes, and
    raises [InvalidRequestError] when it cannot. *)
Definition sortable (keys : list key) : bool :=
  forallb (λ a, forallb (same_type a) keys) keys.

(** What the session holds for a room once it has read it, or read it again
    after a commit: the participants are objects read from rows, and
    nothing is changed. *)
Definition loaded (db_room : Room.t) : Pending.t :=
  {| Pending.room := db_room;
     Pending.members := Int <$> Room.participants db_room;
     Pending.changed := [] |}.

(** [db.commit()] with the changes of the room pending in the session. *)
Definition commit_room (room_id : Z) (db_room : Room.t) : M unit := λ db,
  (inr (), set_rooms <[room_id := db_room]> db).

Section SQLite.
(** The integer that SQLite reads from a text that is compared with, or
    stored in, an INTEGER column, if it reads one (it does from the decimal
    text of an integer). *)
Variable sqlite_integer : string → option Z.

(** [db.query(User).filter(User.id == user_id).first()] where [user_id] is
    a key of [user_sums], a [str]: the id of the user found, if any. *)
Definition query_user_by_key (user_id : string) : M (option Z) := λ db,
  (inr (match sqlite_integer user_id with
        | Some z => if decide (is_Some (users db !! z)) then Some z else None
        | None => None
        end), db).

(** [user = User(id=user_id, name=f"User {user_id}"); db.add(user);
    db.commit(); db.refresh(user)] where [user_id] is a [str]: the flush
    sorts the changed users, inserts the row, whose primary key takes the
    integer read from the text (a text that gives none is refused), and
    writes what is pending for the room; the result is the id that
    [db.refresh] reads back. *)
Definition add_user_by_key (room_id : Z) (p : Pending.t) (user_id : string)
    : M Z :=
  if sortable (Pending.changed p) then
    match sqlite_integer user_id with
    | Some z =>
        _ ← add_user z ("User " ++ user_id)%string;
        _ ← commit_room room_id (Pending.room p);
        mret z
    | None => raise IntegrityError
    end
  else raise InvalidRequestError.

(** The body of the loop over [invoice.user_sums.keys()] in [update_room]:
    the user is fetched, or created and committed when there is none, and
    appended to the participants unless the object is among them.  The
    object fetched has the [int] id of its row as identity key, the object
    created keeps the [str] key it was created with. *)
Definition sync_user (room_id : Z) (p : Pending.t) (user_id : string)
    : M Pending.t :=
  user ← query_user_by_key user_id;
  user ← match user with
         | Some z => mret (z, Int z, p)
         | None => z ← add_user_by_key room_id p user_id;
                   mret (z, Str user_id, loaded (Pending.room p))
         end;
  let '(id, ident, p) := user in
  if decide (ident ∈ Pending.members p) then mret p
  else mret {| Pending.room :=
                 room_set_participants
                   (Room.participants (Pending.room p) ++ [id]) (Pending.room p);
               Pending.members := Pending.members p ++ [ident];
               Pending.changed := Pending.changed p ++ [ident] |}.

(** The body of the loop over [room.invoices] in [update_room]. *)
Definition sync_invoice (room_id : Z) (p : Pending.t) (invoice_id : Z)
    : M Pending.t :=
  invoice ← query_data invoice_id;
  match invoice with
  | Some invoice => for_each (Data.user_sums invoice).*1 p (sync_user room_id)
  | None => mret p
  end.

(** The final [db.commit()] of [update_room]. *)
Definition commit_pending (room_id : Z) (p : Pending.t) : M unit :=
  if sortable (Pending.changed p) then commit_room room_id (Pending.room p)
  else raise InvalidRequestError.

(** [update_room].  A [schemas.RoomUpdate] has no attribute
    [additional_props], so the block under [hasattr(room, 'additional_props')]
    is never entered. *)
Definition update_room (room_id : Z) (room : RoomUpdate.t) : M Room.t :=
  db_room ← query_room room_id;
  match db_room with
  | None => raise (HTTPException 404 (Lit "Room not found"))
  | Some db_room =>
      let db_room :=
        match RoomUpdate.name room with
        | Some name => room_set_name name db_room
        | None => db_room
        end in
      let db_room :=
        match RoomUpdate.expense_type room with
        | Some t => room_set_expense_type t db_room
        | None => db_room
        end in
      db_room ←
        match RoomUpdate.participant_ids room with
        | Some ids =>
            db_participants ← query_users_in ids;
            match db_participants with
            | [] => raise (HTTPException 400 (Lit "Participants not found"))
            | _ => mret (room_set_participants db_participants db_room)
            end
        | None => mret db_room
        end;
      p ←
        match RoomUpdate.invoices room with
        | Some ids =>
            for_each ids (loaded (room_set_invoices ids db_room))
                     (sync_invoice room_id)
        | None => mret (loaded db_room)
        end;
      _ ← commit_pending room_id p;
      mret (Pending.room p)
  end.
End SQLite.

(** A reading of decimal texts, for the examples: the integer written by
    digits with an optional minus sign. *)
Definition decimal_integer (s : string) : option Z :=
  Z.of_int <$> NilZero.int_of_string s.

(** [db.delete(room); db.commit()] *)
Definition delete_room_row (room_id : Z) : M unit := λ db,
  (inr (), set_rooms (delete room_id) db).

Definition delete_room (room_id : Z) : M string :=
  room ← query_room room_id;
  match room with
  | None => raise (HTTPException 404 (Lit "Room not found"))
  | Some _ =>
      _ ← delete_room_row room_id;
      mret "Room deleted successfully"%string
  end.

(** [invoice.creator_name] where [invoice : schemas.DataCreate]: the class
    declares no such field either. *)
Definition DataCreate_creator_name (invoice : DataCreate.t) : M string :=
  raise (AttributeError "creator_name").

(** [db.commit(); db.refresh(db_invoice)] *)
Definition commit_data (invoice_id : Z) (db_invoice : Data.t) : M unit := λ db,
  (inr (), set_data <[invoice_id := db_invoice]> db).

Definition update_invoice (invoice_id : Z) (invoice : DataCreate.t) : M Data.t :=
  try_except
    (db_invoice ← query_data invoice_id;
     match db_invoice with
     | None => raise (HTTPException 404 (Lit "Invoice not found"))
     | Some db_invoice =>
         let db_invoice :=
           {| Data.name := DataCreate.name invoice;
              Data.description := DataCreate.description invoice;
              Data.date := DataCreate.date invoice;
              Data.total := DataCreate.total invoice;
              Data.user_sums := json_roundtrip (DataCreate.user_sums invoice);
              Data.creator_id := Data.creator_id db_invoice;
              Data.status := Data.status db_invoice |} in
         _ ← DataCreate_creator_name invoice;
         _ ← commit_data invoice_id db_invoice;
         mret db_invoice
     end)
    bad_request.

(** [db.delete(invoice); db.commit()] *)
Definition delete_data_row (invoice_id : Z) : M unit := λ db,
  (inr (), set_data (delete invoice_id) db).

Definition delete_invoice (invoice_id : Z) : M Data.t :=
  try_except
    (invoice ← query_data invoice_id;
     match invoice with
     | None => raise (HTTPException 404 (Lit "Invoice not found"))
     | Some invoice =>
         _ ← delete_data_row invoice_id;
         mret invoice
     end)
    bad_request.

(** [db.query(Data).filter(Data.creator_id == user_id).all()]: the rows
    found, in the order of the primary key. *)
Definition query_data_by_creator (user_id : Z) : M (list Data.t) := λ db,
  (inr (filter (λ d, Data.creator_id d = user_id)
          (omap (λ i, data db !! i)
                (merge_sort Z.le (map_to_list (data db)).*1))), db).

(** [sum(invoice.total for invoice in invoices)] *)
Definition get_total_invoices_by_user (user_id : Z) : M float :=
  invoices ← query_data_by_creator user_id;
  let total_sum := fold_left Float.add (Data.total <$> invoices) Float.zero in
  mret total_sum.

(** [db.query(Data).filter(Data.id == i, Data.creator_id == u).first()] *)
Definition query_data_created_by (i user_id : Z) : M (option Data.t) := λ db,
  (inr (match data db !! i with
        | Some d => if decide (Data.creator_id d = user_id) then Some d else None
        | None => None
        end), db).

Definition get_total_invoices_by_user_in_room (room_id user_id : Z) : M float :=
  room ← query_room room_id;
  match room with
  | None => raise (HTTPException 404 (Lit "Room not found"))
  | Some room =>
      for_each (Room.invoices room) Float.zero (λ total_sum invoice_id,
        invoice ← query_data_created_by invoice_id user_id;
        match invoice with
        | Some invoice => mret (Float.add total_sum (Data.total invoice))
        | None => mret total_sum
        end)
  end.

Definition get_user (user_id : Z) : M User.t :=
  user ← query_user user_id;
  match user with
  | None => raise (HTTPException 404 (Lit "User not found"))
  | Some user => mret user
  end.

(** ** The example of the specification

    The invoices are stored rows, so the keys of their [user_sums] are the
    strings that the JSON column returns for the user ids. *)

Module Example.
Definition I1 : Data.t :=
  {| Data.name := "I1"; Data.description := None; Data.date := None;
     Data.total := Float.of_Z 50;
     Data.user_sums := [("2"%string, Float.of_Z 30); ("3"%string, Float.of_Z 20)];
     Data.creator_id := 1; Data.status := false |}.
Definition I2 : Data.t :=
  {| Data.name := "I2"; Data.description := None; Data.date := None;
     Data.total := Float.of_Z 10;
     Data.user_sums := [("1"%string, Float.of_Z 10)];
     Data.creator_id := 2; Data.status := false |}.
Definition R : Room.t :=
  {| Room.name := "R"; Room.expense_type := one_time;
     Room.invoices := [1; 2]; Room.participants := [1; 2; 3] |}.
(** A second room over the same invoices, whose list also holds the id 9,
    which resolves to no invoice. *)
Definition R2 : Room.t :=
  {| Room.name := "R2"; Room.expense_type := long_term;
     Room.invoices := [1; 9; 2]; Room.participants := [1; 2; 3] |}.
Definition db : DB :=
  {| users := {[ 1 := {| User.name := "User 1" |};
                 2 := {| User.name := "User 2" |};
                 3 := {| User.name := "User 3" |} ]};
     rooms := {[ 1 := R; 2 := R2 ]};
     data := {[ 1 := I1; 2 := I2 ]} |}.
End Example.

(** ** Specification-side definitions *)

(** The invoices that the ids of a room resolve to, in the order of the ids;
    an id that does not resolve is left out. *)
Definition resolvable (db : DB) (ids : list Z) : list Data.t :=
  omap (λ i, data db !! i) ids.

(** The float sum of a list, accumulated from [0.0] from left to right. *)
Definition fsum (l : list float) : float := fold_left Float.add l Float.zero.

(** [total_for_room]: the sum of [total] over the invoices that resolve. *)
Definition total_for_room (db : DB) (room : Room.t) : float :=
  fsum (Data.total <$> resolvable db (Room.invoices room)).

(** The sum of [user_sums[user]] over the invoices that resolve and have an
    amount for [user], the amount being the one stored under the key that
    the JSON column returns for the id of the user. *)
Definition share_sum (db : DB) (room : Room.t) (user : Z) : float :=
  fsum (omap (λ invoice, dict_get (Data.user_sums invoice) (Str (py_str user)))
             (resolvable db (Room.invoices room))).

(** [aggregate]: the gross debts of a sequence of invoices, by the loop
    body of [get_balances_in_room]. *)
Definition aggregate (invoices : list Data.t) : gmap key (gmap Z float) :=
  fold_left (λ debts invoice, collect_invoice debts (Some invoice)) invoices ∅.

(** The entry [m[a][b]] of a two-level mapping, if there is one. *)
Definition entry `{Countable K} (m : gmap K (gmap Z float)) (a : K) (b : Z)
    : option float :=
  m !! a ≫= (.!! b).

(** The gross debt recorded for the user [debtor] towards [creditor]: the
    amount under the key that the JSON column returns for the id of the
    debtor, 0.0 when there is none. *)
Definition gross_debt (debts : gmap key (gmap Z float)) (debtor creditor : Z)
    : float :=
  default Float.zero (entry debts (Str (py_str debtor)) creditor).

(** The amounts that an invoice has under the key [debtor] when its creator
    is [creditor], in the order of its items. *)
Definition contribution (debtor : key) (creditor : Z) (invoice : Data.t)
    : list float :=
  if decide (Data.creator_id invoice = creditor)
  then (filter (λ kv, Str kv.1 = debtor) (Data.user_sums invoice)).*2
  else [].

(** The same over a sequence of invoices, in the order of the invoices. *)
Definition contributions (invoices : list Data.t) (debtor : key) (creditor : Z)
    : list float :=
  invoices ≫= contribution debtor creditor.

(** The net amount of an ordered pair, as [get_balances_in_room] computes
    it from the gross debts. *)
Definition net (debts : gmap key (gmap Z float)) (debtor creditor : Z) : float :=
  Float.sub (debts_get debts debtor creditor) (debts_get debts creditor debtor).

(** A two-level mapping none of whose rows is an empty mapping. *)
Definition no_empty_rows `{Countable K} (m : gmap K (gmap Z float)) : Prop :=
  ∀ a inner, m !! a = Some inner → inner ≠ ∅.

(** The id of the row that an identity key of the session denotes. *)
Definition key_id (sqlite_integer : string → option Z) (k : key) : option Z :=
  match k with
  | Int z => Some z
  | Str s => sqlite_integer s
  end.

(** Every object among the participants held in the session denotes a row
    whose id is listed in the participants of the pending room. *)
Definition members_listed (sqlite_integer : string → option Z)
    (p : Pending.t) : Prop :=
  ∀ k, k ∈ Pending.members p →
       ∃ z, key_id sqlite_integer k = Some z
            ∧ z ∈ Room.participants (Pending.room p).

(** Three stored invoices created by user 1, with the amounts 0.1, 0.2 and
    0.3 for user 2. *)
Module Cents.
Definition invoice (amount : float) : Data.t :=
  {| Data.name := "J"; Data.description := None; Data.date := None;
     Data.total := amount;
     Data.user_sums := [("2"%string, amount)];
     Data.creator_id := 1; Data.status := false |}.
Definition J1 : Data.t := invoice Float.lit_0_1.
Definition J2 : Data.t := invoice Float.lit_0_2.
Definition J3 : Data.t := invoice Float.lit_0_3.
End Cents.

(** A request to [create_invoice]: user 1 creates an invoice in which
    user 4, who is not a user yet, owes 25. *)
Module Request.
Definition new_invoice : DataCreate.t :=
  {| DataCreate.name := "Taxi"; DataCreate.description := None;
     DataCreate.date := None; DataCreate.total := Float.of_Z 25;
     DataCreate.user_sums := {[ 4 := Float.of_Z 25 ]};
     DataCreate.creator_id := 1 |}.
End Request.

(** Variants of the rooms of the example. *)
Module Variant.
(** A room with the invoices of room R of the example, whose participants
    are listed in another order and with a repetition. *)
Definition R : Room.t :=
  {| Room.name := "R again"; Room.expense_type := long_term;
     Room.invoices := [1; 2]; Room.participants := [3; 1; 3; 2] |}.
(** A room none of whose invoice ids resolves. *)
Definition dangling : Room.t :=
  {| Room.name := "Dangling"; Room.expense_type := one_time;
     Room.invoices := [8; 9]; Room.participants := [1; 2] |}.
Definition db : DB :=
  {| users := users Example.db;
     rooms := {[ 1 := Example.R; 2 := R; 3 := dangling ]};
     data := data Example.db |}.
End Variant.

(** Requests to [update_room]. *)
Module Update.
(** Rename the room and change its type. *)
Definition rename : RoomUpdate.t :=
  {| RoomUpdate.name := Some "Trip"%string;
     RoomUpdate.expense_type := Some long_term;
     RoomUpdate.participant_ids := None; RoomUpdate.invoices := None |}.
(** Replace the participants by users 2 and 9, of whom only 2 exists. *)
Definition participants : RoomUpdate.t :=
  {| RoomUpdate.name := None; RoomUpdate.expense_type := None;
     RoomUpdate.participant_ids := Some [9; 2]; RoomUpdate.invoices := None |}.
(** Replace the participants by users 8 and 9, who do not exist. *)
Definition nobody : RoomUpdate.t :=
  {| RoomUpdate.name := Some "Trip"%string; RoomUpdate.expense_type := None;
     RoomUpdate.participant_ids := Some [8; 9]; RoomUpdate.invoices := None |}.
(** Attach the invoices 1, 2 and the dangling id 9. *)
Definition attach : RoomUpdate.t :=
  {| RoomUpdate.name := None; RoomUpdate.expense_type := None;
     RoomUpdate.participant_ids := None; RoomUpdate.invoices := Some [1; 9; 2] |}.
(** A room without participants or invoices, beside the rooms of the
    example. *)
Definition empty_room : Room.t :=
  {| Room.name := "New"; Room.expense_type := one_time;
     Room.invoices := []; Room.participants := [] |}.
Definition db : DB :=
  {| users := users Example.db;
     rooms := <[ 5 := empty_room ]> (rooms Example.db);
     data := data Example.db |}.
End Update.

(** ** The monad: read-only loops *)

(** Unfolds the monad, to run an endpoint on a store. *)
Ltac run :=
  unfold mbind, M_bind, mret, M_ret, raise, try_except, bad_request,
    query_user, query_room, query_data; simpl.

Lemma for_each_pure {A B} (g : DB → A → B → A) (body : A → B → M A)
    (l : list B) (acc : A) (db : DB) :
  (∀ a x, body a x db = (inr (g db a x), db)) →
  for_each l acc body db = (inr (fold_left (g db) l acc), db).
Proof.
  intros Hbody. revert acc.
  induction l as [|x l IH]; intros acc; simpl; [done|].
  unfold mbind, M_bind. rewrite Hbody. apply IH.
Qed.

(** ** Direct lookups *)

Lemma get_room_found (db : DB) (room_id : Z) (room : Room.t) :
  rooms db !! room_id = Some room →
  get_room room_id db =
    (inr {| view_name := Room.name room;
            view_expense_type := ExpenseType_value (Room.expense_type room);
            view_participants := Room.participants room;
            view_invoices := Room.invoices room |}, db).
Proof. intros Hroom. unfold get_room. run. by rewrite Hroom. Qed.

(** A room id that does not resolve: [get_room] raises 404. *)
Lemma get_room_not_found (db : DB) (room_id : Z) :
  rooms db !! room_id = None →
  get_room room_id db = (inl (HTTPException 404 (Lit "Room not found")), db).
Proof. intros Hroom. unfold get_room. run. by rewrite Hroom. Qed.

(** An invoice id that does not resolve: the 404 raised inside the [try]
    block is caught by the handler of the same function and replaced by a
    400. *)
Lemma get_invoice_not_found (db : DB) (invoice_id : Z) :
  data db !! invoice_id = None →
  get_invoice invoice_id db =
    (inl (HTTPException 400 (str (HTTPException 404 (Lit "Invoice not found")))), db).
Proof. intros Hinv. unfold get_invoice. run. by rewrite Hinv. Qed.

Lemma get_invoice_found (db : DB) (invoice_id : Z) (invoice : Data.t) :
  data db !! invoice_id = Some invoice →
  get_invoice invoice_id db = (inr invoice, db).
Proof. intros Hinv. unfold get_invoice. run. by rewrite Hinv. Qed.

(** C8, evaluated on the store of the example, where no invoice has id 7 and
    no room has id 7: [get_room] raises 404 "Room not found", but
    [get_invoice] raises 400, not 404, because its own catch-all handler
    re-raises the 404 as a 400. *)
Theorem get_invoice_missing_is_400 :
  data Example.db !! 7 = None ∧
  rooms Example.db !! 7 = None ∧
  get_room 7 Example.db =
    (inl (HTTPException 404 (Lit "Room not found")), Example.db) ∧
  get_invoice 7 Example.db =
    (inl (HTTPException 400 (str (HTTPException 404 (Lit "Invoice not found")))),
     Example.db).
Proof.
  assert (Hd : data Example.db !! 7 = None) by reflexivity.
  assert (Hr : rooms Example.db !! 7 = None) by reflexivity.
  split_and!; [done | done | by apply get_room_not_found
              | by apply get_invoice_not_found].
Qed.

(** ** Closing an invoice *)

Lemma confirm_close_invoice_eq (db : DB) (invoice_id : Z) :
  confirm_close_invoice invoice_id db =
    match data db !! invoice_id with
    | None =>
        (inl (HTTPException 400 (str (HTTPException 404 (Lit "Invoice not found")))), db)
    | Some invoice =>
        if Data.status invoice
        then (inl (HTTPException 400
                     (str (HTTPException 400 (Lit "Invoice is already closed")))), db)
        else (inr (Data.set_status true invoice),
              set_data <[invoice_id := Data.set_status true invoice]> db)
    end.
Proof.
  unfold confirm_close_invoice. run.
  destruct (data db !! invoice_id) as [invoice|]; [|done].
  by destruct (Data.status invoice).
Qed.

(** C5: [confirm_close_invoice] on a closed invoice fails with status 400
    carrying "Invoice is already closed" and leaves the store as it was; and
    whatever invoice it is called on, an invoice that was closed before the
    call is closed after it. *)
Theorem confirm_close_closed (db : DB) (invoice_id : Z) :
  (∀ invoice,
     data db !! invoice_id = Some invoice →
     Data.status invoice = true →
     confirm_close_invoice invoice_id db =
       (inl (HTTPException 400
               (str (HTTPException 400 (Lit "Invoice is already closed")))), db)) ∧
  (∀ j invoice,
     data db !! j = Some invoice →
     Data.status invoice = true →
     ∃ invoice', data (confirm_close_invoice invoice_id db).2 !! j = Some invoice'
                 ∧ Data.status invoice' = true).
Proof.
  rewrite confirm_close_invoice_eq. split.
  - intros invoice -> ->. done.
  - intros j invoice Hj Hclosed.
    destruct (data db !! invoice_id) as [inv|] eqn:Hinv; [|by eauto].
    destruct (Data.status inv) eqn:Hst; [by eauto|]. simpl.
    destruct (decide (invoice_id = j)) as [->|Hne].
    + rewrite lookup_insert_eq. eauto.
    + rewrite lookup_insert_ne by done. eauto.
Qed.

Lemma confirm_close_closed_witness :
  confirm_close_invoice 1 (set_data (alter (Data.set_status true) 1) Example.db) =
    (inl (HTTPException 400
            (str (HTTPException 400 (Lit "Invoice is already closed")))),
     set_data (alter (Data.set_status true) 1) Example.db)
  ∧ ∃ invoice',
      data (confirm_close_invoice 2
              (set_data (alter (Data.set_status true) 1) Example.db)).2 !! 1
        = Some invoice'
      ∧ Data.status invoice' = true.
Proof.
  split.
  - apply (proj1 (confirm_close_closed
                    (set_data (alter (Data.set_status true) 1) Example.db) 1)
             (Data.set_status true Example.I1)); reflexivity.
  - apply (proj2 (confirm_close_closed
                    (set_data (alter (Data.set_status true) 1) Example.db) 2)
             1 (Data.set_status true Example.I1)); reflexivity.
Defined.

(** C9: [request_close_invoice] never changes the store; it fails when the
    invoice is absent or already closed and otherwise returns the invoice as
    it is stored. *)
Theorem request_close_invoice_no_change (db : DB) (invoice_id : Z) :
  (request_close_invoice invoice_id db).2 = db ∧
  (request_close_invoice invoice_id db).1 =
    match data db !! invoice_id with
    | None =>
        inl (HTTPException 400 (str (HTTPException 404 (Lit "Invoice not found"))))
    | Some invoice =>
        if Data.status invoice
        then inl (HTTPException 400
                    (str (HTTPException 400 (Lit "Invoice is already closed"))))
        else inr invoice
    end.
Proof.
  unfold request_close_invoice. run.
  destruct (data db !! invoice_id) as [invoice|]; [|done].
  by destruct (Data.status invoice).
Qed.

(** C10: [confirm_close_invoice] on an open invoice returns the invoice with
    status closed and every other field as before, stores it under the same
    id, and leaves all other invoices, the rooms and the users unchanged. *)
Theorem confirm_close_open (db : DB) (invoice_id : Z) (invoice : Data.t) :
  data db !! invoice_id = Some invoice →
  Data.status invoice = false →
  ∃ invoice' db',
    confirm_close_invoice invoice_id db = (inr invoice', db') ∧
    data db' !! invoice_id = Some invoice' ∧
    Data.status invoice' = true ∧
    Data.name invoice' = Data.name invoice ∧
    Data.description invoice' = Data.description invoice ∧
    Data.date invoice' = Data.date invoice ∧
    Data.total invoice' = Data.total invoice ∧
    Data.user_sums invoice' = Data.user_sums invoice ∧
    Data.creator_id invoice' = Data.creator_id invoice ∧
    (∀ j, j ≠ invoice_id → data db' !! j = data db !! j) ∧
    rooms db' = rooms db ∧
    users db' = users db.
Proof.
  intros Hinv Hopen. rewrite confirm_close_invoice_eq, Hinv, Hopen.
  eexists _, _. split; [reflexivity|]. simpl.
  rewrite lookup_insert_eq. split_and!; try done.
  intros j Hj. by rewrite lookup_insert_ne.
Qed.

Lemma confirm_close_open_witness :
  ∃ invoice' db',
    confirm_close_invoice 1 Example.db = (inr invoice', db') ∧
    data db' !! 1 = Some invoice' ∧
    Data.status invoice' = true ∧
    Data.name invoice' = Data.name Example.I1 ∧
    Data.description invoice' = Data.description Example.I1 ∧
    Data.date invoice' = Data.date Example.I1 ∧
    Data.total invoice' = Data.total Example.I1 ∧
    Data.user_sums invoice' = Data.user_sums Example.I1 ∧
    Data.creator_id invoice' = Data.creator_id Example.I1 ∧
    (∀ j, j ≠ 1 → data db' !! j = data Example.db !! j) ∧
    rooms db' = rooms Example.db ∧
    users db' = users Example.db.
Proof. apply (confirm_close_open Example.db 1 Example.I1); reflexivity. Defined.

(** ** Totals of a room *)

Lemma resolvable_cons (db : DB) (i : Z) (ids : list Z) :
  resolvable db (i :: ids) =
    match data db !! i with
    | Some invoice => invoice :: resolvable db ids
    | None => resolvable db ids
    end.
Proof. reflexivity. Qed.

(** Leaving the dangling ids out of the list changes nothing to what the list
    resolves to. *)
Lemma resolvable_filter (db : DB) (ids : list Z) :
  resolvable db (filter (λ i, is_Some (data db !! i)) ids) = resolvable db ids.
Proof.
  induction ids as [|i ids IH]; [done|].
  rewrite filter_cons. destruct (decide (is_Some (data db !! i))) as [Hi|Hi].
  - rewrite !resolvable_cons, IH. done.
  - rewrite resolvable_cons, IH.
    destruct (data db !! i) eqn:E; [|done]. destruct Hi. eauto.
Qed.

Lemma total_loop (db : DB) (ids : list Z) (acc : float) :
  fold_left (λ total_sum i,
               match data db !! i with
               | Some invoice => Float.add total_sum (Data.total invoice)
               | None => total_sum
               end) ids acc
  = fold_left Float.add (Data.total <$> resolvable db ids) acc.
Proof.
  revert acc. induction ids as [|i ids IH]; intros acc; [done|].
  rewrite resolvable_cons. simpl.
  destruct (data db !! i) as [invoice|]; simpl; apply IH.
Qed.

Lemma get_total_invoices_eq (db : DB) (room_id : Z) (room : Room.t) :
  rooms db !! room_id = Some room →
  get_total_invoices room_id db = (inr (total_for_room db room), db).
Proof.
  intros Hroom. unfold get_total_invoices. run. rewrite Hroom.
  erewrite for_each_pure with
    (g := λ db total_sum i,
            match data db !! i with
            | Some invoice => Float.add total_sum (Data.total invoice)
            | None => total_sum
            end).
  - by rewrite total_loop.
  - intros a x. run. by destruct (data db !! x).
Qed.

(** C6: for an existing room, [get_total_invoices] returns, without error
    and without changing the store, the float sum of [total] over the
    invoices that the ids of the room resolve to; ids that do not resolve are
    skipped, so a room that lists only the resolvable ids has the same
    total. *)
Theorem get_total_invoices_skips_dangling (db : DB) (room_id : Z) (room : Room.t) :
  rooms db !! room_id = Some room →
  get_total_invoices room_id db = (inr (total_for_room db room), db) ∧
  ∀ room_id' room',
    rooms db !! room_id' = Some room' →
    Room.invoices room' = filter (λ i, is_Some (data db !! i)) (Room.invoices room) →
    get_total_invoices room_id' db = get_total_invoices room_id db.
Proof.
  intros Hroom. split; [by apply get_total_invoices_eq|].
  intros room_id' room' Hroom' Hids.
  rewrite (get_total_invoices_eq _ _ _ Hroom), (get_total_invoices_eq _ _ _ Hroom').
  unfold total_for_room. by rewrite Hids, resolvable_filter.
Qed.

Lemma get_total_invoices_skips_dangling_witness :
  get_total_invoices 2 Example.db =
    (inr (total_for_room Example.db Example.R2), Example.db) ∧
  ∀ room_id' room',
    rooms Example.db !! room_id' = Some room' →
    Room.invoices room' =
      filter (λ i, is_Some (data Example.db !! i)) (Room.invoices Example.R2) →
    get_total_invoices room_id' Example.db = get_total_invoices 2 Example.db.
Proof.
  apply (get_total_invoices_skips_dangling Example.db 2 Example.R2). reflexivity.
Defined.

(** ** Pairwise balance *)

(** An [int] is no key of a JSON object. *)
Lemma dict_get_Int (d : list (string * float)) (z : Z) : dict_get d (Int z) = None.
Proof.
  induction d as [|[s v] d IH]; [done|].
  cbn [dict_get]. destruct (decide (Str s = Int z)) as [[=]|_]. exact IH.
Qed.

Lemma balance_loop (db : DB) (u1 u2 : Z) (ids : list Z) (acc : float * float) :
  fold_left (λ '(user1_balance, user2_balance) i,
               match data db !! i with
               | Some invoice =>
                   (match dict_get (Data.user_sums invoice) (Int u1) with
                    | Some amount => Float.add user1_balance amount
                    | None => user1_balance
                    end,
                    match dict_get (Data.user_sums invoice) (Int u2) with
                    | Some amount => Float.add user2_balance amount
                    | None => user2_balance
                    end)
               | None => (user1_balance, user2_balance)
               end) ids acc
  = (fold_left Float.add
       (omap (λ invoice, dict_get (Data.user_sums invoice) (Int u1))
             (resolvable db ids)) acc.1,
     fold_left Float.add
       (omap (λ invoice, dict_get (Data.user_sums invoice) (Int u2))
             (resolvable db ids)) acc.2).
Proof.
  revert acc. induction ids as [|i ids IH]; intros [b1 b2]; [done|].
  rewrite resolvable_cons. simpl.
  destruct (data db !! i) as [invoice|]; simpl; [|apply IH].
  rewrite IH. simpl.
  by destruct (dict_get (Data.user_sums invoice) (Int u1)),
       (dict_get (Data.user_sums invoice) (Int u2)).
Qed.

(** What the loop of [get_balance_between_users_in_room] accumulates for a
    user: the amounts found under the [int] id of the user. *)
Lemma get_balance_between_users_in_room_eq (db : DB) (room_id u1 u2 : Z)
    (room : Room.t) :
  rooms db !! room_id = Some room →
  get_balance_between_users_in_room room_id u1 u2 db =
    (inr (Float.sub
            (fsum (omap (λ invoice, dict_get (Data.user_sums invoice) (Int u1))
                        (resolvable db (Room.invoices room))))
            (fsum (omap (λ invoice, dict_get (Data.user_sums invoice) (Int u2))
                        (resolvable db (Room.invoices room))))), db).
Proof.
  intros Hroom. unfold get_balance_between_users_in_room. run. rewrite Hroom.
  erewrite for_each_pure with
    (g := λ db '(user1_balance, user2_balance) i,
            match data db !! i with
            | Some invoice =>
                (match dict_get (Data.user_sums invoice) (Int u1) with
                 | Some amount => Float.add user1_balance amount
                 | None => user1_balance
                 end,
                 match dict_get (Data.user_sums invoice) (Int u2) with
                 | Some amount => Float.add user2_balance amount
                 | None => user2_balance
                 end)
            | None => (user1_balance, user2_balance)
            end).
  - by rewrite balance_loop.
  - intros [b1 b2] x. run. by destruct (data db !! x).
Qed.

(** No stored invoice has an amount under an [int] id: the loop adds
    nothing. *)
Lemma int_key_amounts (u : Z) (invoices : list Data.t) :
  omap (λ invoice, dict_get (Data.user_sums invoice) (Int u)) invoices = [].
Proof.
  induction invoices as [|invoice invoices IH]; [done|].
  cbn [omap list_omap]. by rewrite dict_get_Int.
Qed.

(** ** Floats: the sign of a difference *)




Lemma eqb_zero_not_positive (x : float) :
  Float.eqb x Float.zero = true → Float.ltb Float.zero x = false.
Proof. destruct x as [s|s| |s m e]; try done; by destruct s. Qed.

(** ** Two-level mappings *)

Lemma entry_empty `{Countable K} (a : K) (b : Z) :
  entry (∅ : gmap K (gmap Z float)) a b = None.
Proof. unfold entry. by rewrite lookup_empty. Qed.

Lemma entry_insert2 `{Countable K} (m : gmap K (gmap Z float)) (a a' : K)
    (b b' : Z) (v : float) :
  entry (<[a := <[b := v]> (default ∅ (m !! a))]> m) a' b' =
    if decide (a = a' ∧ b = b') then Some v else entry m a' b'.
Proof.
  unfold entry. destruct (decide (a = a')) as [->|Ha].
  - rewrite lookup_insert_eq. simpl. destruct (decide (b = b')) as [->|Hb].
    + rewrite lookup_insert_eq. by rewrite decide_True.
    + rewrite lookup_insert_ne by done. rewrite decide_False by naive_solver.
      destruct (m !! a'); simpl; [done|]. by rewrite lookup_empty.
  - rewrite lookup_insert_ne by done. by rewrite decide_False by naive_solver.
Qed.

Lemma debts_get_entry (m : gmap key (gmap Z float)) (a b : Z) :
  debts_get m a b = default Float.zero (entry m (Int a) b).
Proof.
  unfold debts_get, entry. destruct (m !! Int a); simpl; [done|].
  by rewrite lookup_empty.
Qed.

Lemma entry_simplified_set (m : gmap Z (gmap Z float)) (a b a' b' : Z) (v : float) :
  entry (simplified_set a b v m) a' b' =
    if decide (a = a' ∧ b = b') then Some v else entry m a' b'.
Proof. apply entry_insert2. Qed.

Lemma entry_debts_add (m : gmap key (gmap Z float)) (a a' : key) (b b' : Z)
    (amount : float) :
  entry (debts_add a b amount m) a' b' =
    if decide (a = a' ∧ b = b')
    then Some (Float.add (default Float.zero (entry m a b)) amount)
    else entry m a' b'.
Proof.
  unfold debts_add. rewrite entry_insert2. do 2 f_equal.
  unfold entry. destruct (m !! a); simpl; [done|]. by rewrite lookup_empty.
Qed.

(** ** Netting *)

Lemma dict_keys_elem (l : list Z) (x : Z) : x ∈ dict_keys l ↔ x ∈ l.
Proof.
  unfold dict_keys.
  assert (H : ∀ keys, x ∈ fold_left (λ keys k, if decide (k ∈ keys) then keys
                                                else keys ++ [k]) l keys
                      ↔ x ∈ keys ∨ x ∈ l).
  { induction l as [|k l IH]; intros keys; simpl.
    - set_solver.
    - rewrite IH. case_decide; set_solver. }
  rewrite H. set_solver.
Qed.

Lemma simplify_row (debts : gmap key (gmap Z float))
    (acc : gmap Z (gmap Z float)) (d : Z) (cs : list Z) (a b : Z) :
  entry (fold_left (λ simplified_debts creditor_id,
      if decide (d = creditor_id) then simplified_debts
      else
        let amount_owed := debts_get debts d creditor_id in
        let reverse_amount := debts_get debts creditor_id d in
        let net_amount := Float.sub amount_owed reverse_amount in
        if Float.ltb Float.zero net_amount
        then simplified_set d creditor_id net_amount simplified_debts
        else simplified_debts) cs acc) a b
  = if decide (a = d ∧ b ∈ cs ∧ a ≠ b
               ∧ Float.ltb Float.zero (net debts a b) = true)
    then Some (net debts a b)
    else entry acc a b.
Proof.
  revert acc. induction cs as [|c cs IH]; intros acc; simpl.
  - rewrite decide_False; [done|]. set_solver.
  - rewrite IH. clear IH. fold (net debts d c).
    destruct (decide (d = c)) as [->|Hdc].
    + repeat case_decide; try done; exfalso; set_solver.
    + destruct (Float.ltb Float.zero (net debts d c)) eqn:Hpos.
      * rewrite entry_simplified_set.
        repeat case_decide; try done; try (exfalso; set_solver).
        naive_solver.
      * apply decide_ext. rewrite elem_of_cons.
        split; [naive_solver|].
        intros (-> & [->|Hin] & Hne & Hlt); [congruence|done].
Qed.

Lemma entry_simplify_debts (debts : gmap key (gmap Z float)) (ps : list Z)
    (a b : Z) :
  entry (simplify_debts debts ps) a b =
    if decide (a ∈ ps ∧ b ∈ ps ∧ a ≠ b
               ∧ Float.ltb Float.zero (net debts a b) = true)
    then Some (net debts a b)
    else None.
Proof.
  assert (Hrows : ∀ ds cs acc,
    entry (fold_left (λ simplified_debts debtor_id,
      fold_left (λ simplified_debts creditor_id,
        if decide (debtor_id = creditor_id) then simplified_debts
        else
          let amount_owed := debts_get debts debtor_id creditor_id in
          let reverse_amount := debts_get debts creditor_id debtor_id in
          let net_amount := Float.sub amount_owed reverse_amount in
          if Float.ltb Float.zero net_amount
          then simplified_set debtor_id creditor_id net_amount simplified_debts
          else simplified_debts)
        cs simplified_debts) ds acc) a b
    = if decide (a ∈ ds ∧ b ∈ cs ∧ a ≠ b
                 ∧ Float.ltb Float.zero (net debts a b) = true)
      then Some (net debts a b)
      else entry acc a b).
  { induction ds as [|d ds IH]; intros cs acc; cbn [fold_left].
    - rewrite decide_False; [done|]. set_solver.
    - rewrite IH, simplify_row. clear IH.
      destruct (decide (a = d)) as [->|Had].
      + destruct (decide (d ∈ ds ∧ b ∈ cs ∧ d ≠ b
                          ∧ Float.ltb Float.zero (net debts d b) = true))
          as [Hin|Hin].
        * rewrite decide_True; [done|]. set_solver.
        * apply decide_ext. set_solver.
      + rewrite (decide_False (P := a = d ∧ _)) by naive_solver.
        apply decide_ext. set_solver. }
  unfold simplify_debts. by rewrite Hrows, entry_empty.
Qed.

Lemma entry_remove_empty (m : gmap Z (gmap Z float)) (a b : Z) :
  entry (remove_empty m) a b = entry m a b.
Proof.
  unfold entry, remove_empty.
  destruct (m !! a) as [inner|] eqn:Hrow; simpl.
  - destruct (decide (size inner ≠ 0%nat)) as [Hsize|Hsize].
    + by rewrite (map_lookup_filter_Some_2 _ _ _ _ Hrow Hsize).
    + rewrite map_lookup_filter_None_2; simpl.
      * assert (inner = ∅) as -> by (apply map_size_empty_inv; lia).
        by rewrite lookup_empty.
      * right. intros x Hx. rewrite Hrow in Hx. by injection Hx as <-.
  - rewrite map_lookup_filter_None_2; [done|]. by left.
Qed.

Lemma remove_empty_no_empty_rows (m : gmap Z (gmap Z float)) :
  no_empty_rows (remove_empty m).
Proof.
  intros a inner [_ Hsize]%map_lookup_filter_Some. simpl in Hsize.
  by apply map_size_non_empty_iff.
Qed.

(** ** The loop over the invoices of a room *)

Lemma collect_loop (db : DB) (ids : list Z) (acc : gmap key (gmap Z float)) :
  fold_left (λ debts i, collect_invoice debts (data db !! i)) ids acc
  = fold_left (λ debts invoice, collect_invoice debts (Some invoice))
              (resolvable db ids) acc.
Proof.
  revert acc. induction ids as [|i ids IH]; intros acc; [done|].
  rewrite resolvable_cons. simpl.
  destruct (data db !! i) as [invoice|]; simpl; apply IH.
Qed.

Lemma get_balances_in_room_eq (db : DB) (room_id : Z) (room : Room.t) :
  rooms db !! room_id = Some room →
  get_balances_in_room room_id db =
    (inr (remove_empty
            (simplify_debts (aggregate (resolvable db (Room.invoices room)))
                            (dict_keys (Room.participants room)))), db).
Proof.
  intros Hroom. unfold get_balances_in_room. run. rewrite Hroom.
  erewrite for_each_pure with
    (g := λ db debts i, collect_invoice debts (data db !! i)).
  - by rewrite collect_loop.
  - intros debts i. by run.
Qed.

(** ** The gross debts *)

Lemma entry_collect_items (creator : Z) (items : list (string * float))
    (debts : gmap key (gmap Z float)) (k : key) (c : Z) :
  entry (fold_left (λ debts '(user_id, amount),
                      if decide (Str user_id ≠ Int creator)
                      then debts_add (Str user_id) creator amount debts
                      else debts) items debts) k c
  = fold_left (λ o amount, Some (Float.add (default Float.zero o) amount))
      (if decide (creator = c)
       then (filter (λ kv, Str kv.1 = k) items).*2 else [])
      (entry debts k c).
Proof.
  revert debts. induction items as [|[s a] items IH]; intros debts.
  - by case_decide.
  - cbn [fold_left]. rewrite IH. clear IH.
    destruct (decide (Str s ≠ Int creator)) as [_|Hn]; [|by destruct Hn].
    rewrite entry_debts_add, filter_cons.
    cbn [fst]. destruct (decide (creator = c)) as [->|Hc].
    + destruct (decide (Str s = k)) as [<-|Hk].
      * by rewrite decide_True.
      * rewrite decide_False; [done|]. by intros [? _].
    + rewrite decide_False; [done|]. by intros [_ ?].
Qed.

Lemma entry_collect_invoice (debts : gmap key (gmap Z float)) (invoice : Data.t)
    (k : key) (c : Z) :
  entry (collect_invoice debts (Some invoice)) k c
  = fold_left (λ o amount, Some (Float.add (default Float.zero o) amount))
      (contribution k c invoice) (entry debts k c).
Proof.
  unfold contribution.
  rewrite <- (entry_collect_items (Data.creator_id invoice)).
  unfold collect_invoice. by destruct (Data.user_sums invoice).
Qed.

Lemma contributions_cons (invoice : Data.t) (invoices : list Data.t) (k : key)
    (c : Z) :
  contributions (invoice :: invoices) k c
  = contribution k c invoice ++ contributions invoices k c.
Proof. reflexivity. Qed.

Lemma entry_aggregate_from (invoices : list Data.t)
    (debts : gmap key (gmap Z float)) (k : key) (c : Z) :
  entry (fold_left (λ debts invoice, collect_invoice debts (Some invoice))
                   invoices debts) k c
  = fold_left (λ o amount, Some (Float.add (default Float.zero o) amount))
              (contributions invoices k c) (entry debts k c).
Proof.
  revert debts. induction invoices as [|invoice invoices IH]; intros debts.
  - done.
  - cbn [fold_left].
    by rewrite IH, entry_collect_invoice, contributions_cons, fold_left_app.
Qed.

Lemma osum_default (l : list float) (o : option float) :
  default Float.zero
    (fold_left (λ o amount, Some (Float.add (default Float.zero o) amount)) l o)
  = fold_left Float.add l (default Float.zero o).
Proof. revert o. induction l as [|a l IH]; intros o; [done|]. simpl. by rewrite IH. Qed.

Lemma osum_is_Some (l : list float) (o : option float) :
  is_Some (fold_left (λ o amount, Some (Float.add (default Float.zero o) amount)) l o)
  ↔ is_Some o ∨ l ≠ [].
Proof.
  revert o. induction l as [|a l IH]; intros o; simpl.
  - naive_solver.
  - rewrite IH. split; [by right|]. intros _. left. eauto.
Qed.

(** Each gross debt is the float sum, from left to right, of the amounts
    that the invoices of the creditor hold under the key. *)
Lemma gross_aggregate (invoices : list Data.t) (k : key) (c : Z) :
  default Float.zero (entry (aggregate invoices) k c)
  = fsum (contributions invoices k c).
Proof.
  unfold aggregate, fsum.
  by rewrite entry_aggregate_from, osum_default, entry_empty.
Qed.

Lemma entry_aggregate (invoices : list Data.t) (k : key) (c : Z) :
  entry (aggregate invoices) k c =
    match contributions invoices k c with
    | [] => None
    | _ => Some (fsum (contributions invoices k c))
    end.
Proof.
  destruct (entry (aggregate invoices) k c) as [v|] eqn:Hentry.
  - assert (Hsome : is_Some (entry (aggregate invoices) k c)) by eauto.
    unfold aggregate in Hsome.
    rewrite entry_aggregate_from, osum_is_Some, entry_empty in Hsome.
    destruct Hsome as [[? [=]]|Hne].
    rewrite <- gross_aggregate, Hentry.
    by destruct (contributions invoices k c).
  - destruct (contributions invoices k c) eqn:Hcs; [done|].
    assert (Hsome : is_Some (entry (aggregate invoices) k c)).
    { unfold aggregate.
      rewrite entry_aggregate_from, osum_is_Some, Hcs. by right. }
    rewrite Hentry in Hsome. by destruct Hsome.
Qed.

(** No invoice contributes under an [int] key: the keys of the gross debts
    are the [str] keys of the JSON objects. *)
Lemma contributions_Int (invoices : list Data.t) (a c : Z) :
  contributions invoices (Int a) c = [].
Proof.
  induction invoices as [|invoice invoices IH]; [done|].
  rewrite contributions_cons, IH, app_nil_r. unfold contribution.
  case_decide; [|done].
  induction (Data.user_sums invoice) as [|[s v] items IHitems]; [done|].
  rewrite filter_cons. by destruct (decide (Str (s, v).1 = Int a)).
Qed.

(** So the lookup of [get_balances_in_room], which goes by the [int] id of
    a participant, finds nothing in the gross debts. *)
Lemma debts_get_aggregate (invoices : list Data.t) (a b : Z) :
  debts_get (aggregate invoices) a b = Float.zero.
Proof. by rewrite debts_get_entry, entry_aggregate, contributions_Int. Qed.

Lemma debts_add_no_empty_rows (a : key) (b : Z) (amount : float)
    (m : gmap key (gmap Z float)) :
  no_empty_rows m → no_empty_rows (debts_add a b amount m).
Proof.
  intros Hm a' inner. unfold debts_add.
  destruct (decide (a = a')) as [->|Hne].
  - rewrite lookup_insert_eq. intros [= <-]. apply insert_non_empty.
  - rewrite lookup_insert_ne by done. apply Hm.
Qed.

Lemma collect_invoice_no_empty_rows (m : gmap key (gmap Z float))
    (invoice : option Data.t) :
  no_empty_rows m → no_empty_rows (collect_invoice m invoice).
Proof.
  destruct invoice as [invoice|]; [|done]. unfold collect_invoice.
  destruct (Data.user_sums invoice) as [|item items]; [done|].
  generalize (item :: items). clear item items. intros items. revert m.
  induction items as [|[k a] items IH]; intros m Hm; [done|].
  cbn [fold_left]. apply IH. case_decide; [|done].
  by apply debts_add_no_empty_rows.
Qed.

Lemma aggregate_no_empty_rows (invoices : list Data.t) :
  no_empty_rows (aggregate invoices).
Proof.
  unfold aggregate.
  assert (H : ∀ m, no_empty_rows m →
    no_empty_rows (fold_left (λ debts invoice,
                                collect_invoice debts (Some invoice)) invoices m)).
  { induction invoices as [|invoice invoices IH]; intros m Hm; [done|].
    cbn [fold_left]. by apply IH, collect_invoice_no_empty_rows. }
  apply H. intros a inner. by rewrite lookup_empty.
Qed.

(** Two mappings without empty rows that have the same entries are equal. *)
Lemma two_level_ext `{Countable K} (m1 m2 : gmap K (gmap Z float)) :
  no_empty_rows m1 → no_empty_rows m2 →
  (∀ a b, entry m1 a b = entry m2 a b) → m1 = m2.
Proof.
  intros H1 H2 Hentries. apply map_eq. intros a.
  specialize (H1 a). specialize (H2 a).
  pose proof (Hentries a) as Ha. unfold entry in Ha.
  destruct (m1 !! a) as [r1|], (m2 !! a) as [r2|]; simpl in Ha.
  - f_equal. by apply map_eq.
  - destruct (H1 r1 eq_refl). by apply map_empty.
  - destruct (H2 r2 eq_refl). apply map_empty. intros b. by rewrite <- Ha.
  - done.
Qed.

(** ** What the endpoints return on stored invoices *)

Lemma entry_balances (debts : gmap key (gmap Z float)) (ps : list Z) (a b : Z) :
  entry (remove_empty (simplify_debts debts (dict_keys ps))) a b =
    if decide (a ∈ ps ∧ b ∈ ps ∧ a ≠ b
               ∧ Float.ltb Float.zero (net debts a b) = true)
    then Some (net debts a b)
    else None.
Proof.
  rewrite entry_remove_empty, entry_simplify_debts. apply decide_ext.
  by rewrite !dict_keys_elem.
Qed.

(** Every net that [get_balances_in_room] computes is [0 - 0], so its
    ledger is empty, whatever the invoices hold. *)
Lemma get_balances_in_room_empty (db : DB) (room_id : Z) (room : Room.t) :
  rooms db !! room_id = Some room →
  get_balances_in_room room_id db = (inr ∅, db).
Proof.
  intros Hroom. rewrite (get_balances_in_room_eq _ _ _ Hroom). do 2 f_equal.
  apply two_level_ext.
  - apply remove_empty_no_empty_rows.
  - intros a inner. by rewrite lookup_empty.
  - intros a b. rewrite entry_balances, entry_empty.
    case_decide as Hab; [|done]. destruct Hab as (_ & _ & _ & Hpos).
    unfold net in Hpos. rewrite !debts_get_aggregate in Hpos.
    discriminate Hpos.
Qed.

(** Every amount that [get_balance_between_users_in_room] adds is looked up
    under an [int] id, so both balances stay 0.0. *)
Lemma get_balance_between_users_in_room_zero (db : DB) (room_id u1 u2 : Z)
    (room : Room.t) :
  rooms db !! room_id = Some room →
  get_balance_between_users_in_room room_id u1 u2 db = (inr Float.zero, db).
Proof.
  intros Hroom. rewrite (get_balance_between_users_in_room_eq _ _ _ _ _ Hroom).
  by rewrite !int_key_amounts.
Qed.

(** C1, on the code: the ledger of [get_balances_in_room] is empty for
    every room, because the gross debts are stored under the [str] keys of
    [user_sums] and looked up under the [int] ids of the participants.  In
    the example user 2 owes user 1 the gross 30 against 10, a net of 20 that
    compares greater than zero, and the ledger has no entry for it. *)
Theorem get_balances_in_room_drops_debts :
  (∀ db room_id room,
     rooms db !! room_id = Some room →
     get_balances_in_room room_id db = (inr ∅, db)) ∧
  (let gross := aggregate (resolvable Example.db (Room.invoices Example.R)) in
   Float.sub (gross_debt gross 2 1) (gross_debt gross 1 2) = Float.of_Z 20 ∧
   Float.ltb Float.zero (Float.of_Z 20) = true ∧
   ∃ ledger, get_balances_in_room 1 Example.db = (inr ledger, Example.db) ∧
             entry ledger 2 1 = None).
Proof.
  split; [apply get_balances_in_room_empty|]. cbv zeta. split_and!.
  - vm_compute. reflexivity.
  - reflexivity.
  - eexists. split; [by apply (get_balances_in_room_empty _ _ Example.R)|].
    apply entry_empty.
Qed.

(** C2, on the code: in the example the aggregation records the gross debts
    under [str] keys, [debts['2'][1] = 30], [debts['3'][1] = 20] and
    [debts['1'][2] = 10], and [get_balances_in_room] returns the empty
    ledger, not [{2: {1: 20}, 3: {1: 20}}]. *)
Theorem example_balances_empty :
  resolvable Example.db (Room.invoices Example.R) = [Example.I1; Example.I2] ∧
  aggregate [Example.I1; Example.I2] =
    {[ Str "2" := {[ 1 := Float.of_Z 30 ]};
       Str "3" := {[ 1 := Float.of_Z 20 ]};
       Str "1" := {[ 2 := Float.of_Z 10 ]} ]} ∧
  get_balances_in_room 1 Example.db = (inr ∅, Example.db).
Proof.
  split_and!.
  - reflexivity.
  - vm_compute. reflexivity.
  - by apply (get_balances_in_room_empty _ _ Example.R).
Qed.

(** C7, on the code: [get_balance_between_users_in_room] returns 0.0 for
    every room and every two users, because it looks the [int] ids up in
    objects whose keys are [str].  In the example the shares of users 2 and
    1 are 30 and 10, a difference of 20, and the endpoint returns 0.0. *)
Theorem get_balance_between_users_in_room_is_zero :
  (∀ db room_id room user1_id user2_id,
     rooms db !! room_id = Some room →
     get_balance_between_users_in_room room_id user1_id user2_id db
     = (inr Float.zero, db)) ∧
  Float.sub (share_sum Example.db Example.R 2) (share_sum Example.db Example.R 1)
  = Float.of_Z 20 ∧
  get_balance_between_users_in_room 1 2 1 Example.db
  = (inr Float.zero, Example.db).
Proof.
  split_and!.
  - intros db room_id room u1 u2. apply get_balance_between_users_in_room_zero.
  - vm_compute. reflexivity.
  - by apply (get_balance_between_users_in_room_zero _ _ _ _ Example.R).
Qed.

(** ** Aggregation and the order of the invoices *)

(** Reordering the ids of a room reorders the invoices they resolve to. *)
Lemma resolvable_Permutation (db : DB) (ids ids' : list Z) :
  ids ≡ₚ ids' → resolvable db ids ≡ₚ resolvable db ids'.
Proof. intros Hperm. unfold resolvable. by rewrite Hperm. Qed.

(** C3, as stated, fails: the invoices J1, J2, J3 (created by user 1, with
    0.1, 0.2 and 0.3 for user 2) aggregate to
    [debts['2'][1] = 0.6000000000000001] in this order and to
    [debts['2'][1] = 0.6] in the reverse order. *)
Lemma aggregate_order_counterexample :
  [Cents.J1; Cents.J2; Cents.J3] ≡ₚ [Cents.J3; Cents.J2; Cents.J1] ∧
  aggregate [Cents.J1; Cents.J2; Cents.J3]
    = {[ Str "2" := {[ 1 := S754_finite false 5404319552844596 (-53) ]} ]} ∧
  aggregate [Cents.J3; Cents.J2; Cents.J1]
    = {[ Str "2" := {[ 1 := Float.lit_0_6 ]} ]} ∧
  aggregate [Cents.J1; Cents.J2; Cents.J3]
    ≠ aggregate [Cents.J3; Cents.J2; Cents.J1].
Proof.
  split_and!.
  - apply (Permutation_rev [Cents.J1; Cents.J2; Cents.J3]).
  - vm_compute. reflexivity.
  - vm_compute. reflexivity.
  - intros Heq.
    apply (f_equal (λ m, entry m (Str "2") 1)) in Heq.
    vm_compute in Heq. discriminate Heq.
Qed.

(** C3, amended: for a list of invoices and a permutation of it, the two
    aggregations have entries for the same pairs (key, creditor), and each
    gross debt is the float sum, accumulated from 0.0 in the order of the
    respective list, of the same multiset of amounts, those that the
    invoices created by the creditor hold under the key; the two
    aggregations are identical exactly when these float sums agree for
    every pair. *)
Theorem aggregate_permutation (l l' : list Data.t) :
  l ≡ₚ l' →
  (∀ k c,
     contributions l k c ≡ₚ contributions l' k c ∧
     default Float.zero (entry (aggregate l) k c) = fsum (contributions l k c) ∧
     default Float.zero (entry (aggregate l') k c) = fsum (contributions l' k c) ∧
     (is_Some (entry (aggregate l) k c) ↔ is_Some (entry (aggregate l') k c))) ∧
  (aggregate l = aggregate l' ↔
   ∀ k c, fsum (contributions l k c) = fsum (contributions l' k c)).
Proof.
  intros Hperm.
  assert (Hcs : ∀ k c, contributions l k c ≡ₚ contributions l' k c).
  { intros k c. unfold contributions. by rewrite Hperm. }
  assert (Hnil : ∀ k c, contributions l k c = [] ↔ contributions l' k c = []).
  { intros k c. specialize (Hcs k c). split; intros Hn; rewrite Hn in Hcs.
    - by apply Permutation_nil_l in Hcs.
    - by apply Permutation_nil_r in Hcs. }
  split.
  - intros k c. split_and!; [done|apply gross_aggregate..|].
    rewrite !entry_aggregate. specialize (Hnil k c).
    destruct (contributions l k c), (contributions l' k c); try done.
    + destruct Hnil as [Hnil _]. by specialize (Hnil eq_refl).
    + destruct Hnil as [_ Hnil]. by specialize (Hnil eq_refl).
  - split.
    + intros Heq k c. by rewrite <- !gross_aggregate, Heq.
    + intros Hsums. apply two_level_ext; [apply aggregate_no_empty_rows..|].
      intros k c. rewrite !entry_aggregate, Hsums. specialize (Hnil k c).
      destruct (contributions l k c), (contributions l' k c); try done.
      * destruct Hnil as [Hnil _]. by specialize (Hnil eq_refl).
      * destruct Hnil as [_ Hnil]. by specialize (Hnil eq_refl).
Qed.

Lemma aggregate_permutation_witness :
  (∀ k c,
     contributions [Example.I1; Example.I2] k c
       ≡ₚ contributions [Example.I2; Example.I1] k c ∧
     default Float.zero (entry (aggregate [Example.I1; Example.I2]) k c)
       = fsum (contributions [Example.I1; Example.I2] k c) ∧
     default Float.zero (entry (aggregate [Example.I2; Example.I1]) k c)
       = fsum (contributions [Example.I2; Example.I1] k c) ∧
     (is_Some (entry (aggregate [Example.I1; Example.I2]) k c)
      ↔ is_Some (entry (aggregate [Example.I2; Example.I1]) k c))) ∧
  (aggregate [Example.I1; Example.I2] = aggregate [Example.I2; Example.I1] ↔
   ∀ k c, fsum (contributions [Example.I1; Example.I2] k c)
          = fsum (contributions [Example.I2; Example.I1] k c)).
Proof.
  apply (aggregate_permutation [Example.I1; Example.I2] [Example.I2; Example.I1]).
  apply perm_swap.
Defined.

(** ** Creating an invoice *)

Lemma for_each_preserves {A B} (P : DB → Prop) (body : A → B → M A)
    (l : list B) (acc : A) (db : DB) :
  (∀ a x db, P db → P (body a x db).2) →
  P db → P (for_each l acc body db).2.
Proof.
  intros Hbody. revert acc db.
  induction l as [|x l IH]; intros acc db Hdb; simpl; [done|].
  unfold mbind, M_bind. specialize (Hbody acc x db Hdb).
  destruct (body acc x db) as [[e|acc'] db1]; simpl in *; [done|].
  by apply IH.
Qed.

(** The loop of [create_invoice] that creates the missing users touches
    neither the rooms nor the invoices. *)
Lemma create_users_frame (user_ids : list Z) (users0 : list Z) (db : DB) :
  let loop := for_each user_ids users0 ensure_user db in
  rooms loop.2 = rooms db ∧ data loop.2 = data db.
Proof.
  apply (for_each_preserves (λ d, rooms d = rooms db ∧ data d = data db));
    [|done].
  intros a x d Hd. unfold ensure_user. run. destruct (users d !! x); [done|].
  unfold add_user. by destruct (existsb _ _).
Qed.

(** C4, on the code: [create_invoice] never succeeds and never changes a
    room or an invoice, because [invoice.room_id] raises on a
    [schemas.DataCreate]; on the request of the example it has already
    created user 4 when it fails, and room 1 is as before. *)
Theorem create_invoice_never_succeeds :
  (∀ invoice db,
     ∃ e db', create_invoice invoice db = (inl e, db')
              ∧ rooms db' = rooms db ∧ data db' = data db) ∧
  create_invoice Request.new_invoice Example.db =
    (inl (AttributeError "room_id"),
     set_users <[4 := {| User.name := "User 4" |}]> Example.db).
Proof.
  split.
  - intros invoice db.
    pose proof (create_users_frame
                  (map_to_list (DataCreate.user_sums invoice)).*1 [] db) as Hframe.
    cbv zeta in Hframe.
    unfold create_invoice, create_invoice_with, DataCreate_room_id.
    unfold mbind, M_bind, query_user, raise in *. cbv beta.
    destruct (users db !! DataCreate.creator_id invoice); [|by eexists _, _].
    destruct (for_each _ _ _ db) as [[e|us] db1]; by eexists _, _.
  - vm_compute. reflexivity.
Qed.

(** *** What the rest of [create_invoice] does once the room id is known *)

Lemma sync_participants_elem (users ps : list Z) (u : Z) :
  u ∈ sync_participants users ps ↔ u ∈ ps ∨ u ∈ users.
Proof.
  unfold sync_participants. revert ps.
  induction users as [|x users IH]; intros ps; simpl.
  - set_solver.
  - rewrite IH. case_decide; set_solver.
Qed.

Lemma create_users_result (user_ids users0 us : list Z) (db db' : DB) :
  for_each user_ids users0 ensure_user db = (inr us, db') →
  us = users0 ++ user_ids.
Proof.
  revert users0 db. induction user_ids as [|x l IH]; intros users0 db; simpl.
  - intros [= <- _]. by rewrite app_nil_r.
  - unfold mbind at 1. unfold M_bind at 1.
    destruct (ensure_user users0 x db) as [[e|acc] db1] eqn:Hbody; [done|].
    intros Hloop. apply IH in Hloop as ->.
    assert (acc = users0 ++ [x]) as ->; [|by rewrite <- app_assoc].
    revert Hbody. unfold ensure_user. run. destruct (users db !! x).
    + by intros [= <- _].
    + unfold add_user. destruct (existsb _ _); [done|]. by intros [= <- _].
Qed.

(** If the evaluation of [invoice.room_id] yielded the id of a room, a
    successful [create_invoice] would leave every user of [user_sums] among
    the participants of that room. *)
Lemma create_invoice_with_room_id_syncs (room_id : Z) (invoice : DataCreate.t)
    (db db' : DB) (r : Z * Data.t) :
  create_invoice_with (λ _, mret room_id) invoice db = (inr r, db') →
  ∃ room', rooms db' !! room_id = Some room' ∧
    ∀ u, is_Some (DataCreate.user_sums invoice !! u) →
         u ∈ Room.participants room'.
Proof.
  unfold create_invoice_with.
  unfold mbind at 1. unfold M_bind at 1. unfold query_user at 1.
  destruct (users db !! DataCreate.creator_id invoice); [|done].
  unfold mbind at 1. unfold M_bind at 1.
  destruct (for_each _ _ _ db) as [[e|us] db1] eqn:Hloop; [done|].
  apply create_users_result in Hloop. simpl in Hloop. subst us.
  run. destruct (rooms db1 !! room_id) as [room|] eqn:Hroom; [|done].
  unfold set_participants, add_data. simpl. intros [= _ <-]. simpl.
  rewrite lookup_alter_eq, Hroom. simpl. eexists. split; [done|]. simpl.
  intros u [amount Hu]. apply sync_participants_elem. right.
  apply list_elem_of_fmap. exists (u, amount). split; [done|].
  by apply elem_of_map_to_list.
Qed.

(** * Further properties of the endpoints *)

(** ** Rooms that do not exist *)

(** Every endpoint that starts from a room raises 404 "Room not found" when
    the id does not resolve, and leaves the store as it was. *)
Theorem room_endpoints_not_found (sqlite_integer : string → option Z)
    (db : DB) (room_id : Z) :
  rooms db !! room_id = None →
  let not_found := HTTPException 404 (Lit "Room not found") in
  get_total_invoices room_id db = (inl not_found, db) ∧
  (∀ u, get_total_invoices_by_user_in_room room_id u db = (inl not_found, db)) ∧
  (∀ u1 u2, get_balance_between_users_in_room room_id u1 u2 db
            = (inl not_found, db)) ∧
  get_balances_in_room room_id db = (inl not_found, db) ∧
  (∀ room, update_room sqlite_integer room_id room db = (inl not_found, db)) ∧
  delete_room room_id db = (inl not_found, db).
Proof.
  intros Hroom. cbv zeta. split_and!; intros;
    unfold get_total_invoices, get_total_invoices_by_user_in_room,
      get_balance_between_users_in_room, get_balances_in_room, update_room,
      delete_room; run; by rewrite Hroom.
Qed.

Lemma room_endpoints_not_found_witness :
  let not_found := HTTPException 404 (Lit "Room not found") in
  get_total_invoices 7 Example.db = (inl not_found, Example.db) ∧
  (∀ u, get_total_invoices_by_user_in_room 7 u Example.db
        = (inl not_found, Example.db)) ∧
  (∀ u1 u2, get_balance_between_users_in_room 7 u1 u2 Example.db
            = (inl not_found, Example.db)) ∧
  get_balances_in_room 7 Example.db = (inl not_found, Example.db) ∧
  (∀ room, update_room decimal_integer 7 room Example.db
           = (inl not_found, Example.db)) ∧
  delete_room 7 Example.db = (inl not_found, Example.db).
Proof.
  apply (room_endpoints_not_found decimal_integer Example.db 7). reflexivity.
Defined.

(** ** Invoices that do not exist *)

(** The five invoice endpoints wrapped in [try ... except Exception] all
    answer an id that does not resolve with status 400, whose detail is the
    text of the 404 they raised themselves, and leave the store as it was. *)
Theorem invoice_endpoints_not_found (db : DB) (invoice_id : Z) :
  data db !! invoice_id = None →
  let wrapped :=
    HTTPException 400 (str (HTTPException 404 (Lit "Invoice not found"))) in
  get_invoice invoice_id db = (inl wrapped, db) ∧
  (∀ invoice, update_invoice invoice_id invoice db = (inl wrapped, db)) ∧
  delete_invoice invoice_id db = (inl wrapped, db) ∧
  request_close_invoice invoice_id db = (inl wrapped, db) ∧
  confirm_close_invoice invoice_id db = (inl wrapped, db).
Proof.
  intros Hinv. cbv zeta. split_and!; intros;
    unfold get_invoice, update_invoice, delete_invoice, request_close_invoice,
      confirm_close_invoice; run; by rewrite Hinv.
Qed.

Lemma invoice_endpoints_not_found_witness :
  let wrapped :=
    HTTPException 400 (str (HTTPException 404 (Lit "Invoice not found"))) in
  get_invoice 7 Example.db = (inl wrapped, Example.db) ∧
  (∀ invoice, update_invoice 7 invoice Example.db = (inl wrapped, Example.db)) ∧
  delete_invoice 7 Example.db = (inl wrapped, Example.db) ∧
  request_close_invoice 7 Example.db = (inl wrapped, Example.db) ∧
  confirm_close_invoice 7 Example.db = (inl wrapped, Example.db).
Proof. apply (invoice_endpoints_not_found Example.db 7). reflexivity. Defined.

(** ** The life of an invoice *)

(** Once [confirm_close_invoice] has closed an open invoice, closing it
    again and requesting its closure both fail with "Invoice is already
    closed" and change nothing, and [get_invoice] returns the invoice with
    status closed. *)
Theorem close_twice (db : DB) (invoice_id : Z) (invoice : Data.t) :
  data db !! invoice_id = Some invoice →
  Data.status invoice = false →
  let db1 := (confirm_close_invoice invoice_id db).2 in
  let already :=
    HTTPException 400 (str (HTTPException 400 (Lit "Invoice is already closed"))) in
  confirm_close_invoice invoice_id db1 = (inl already, db1) ∧
  request_close_invoice invoice_id db1 = (inl already, db1) ∧
  get_invoice invoice_id db1 = (inr (Data.set_status true invoice), db1).
Proof.
  intros Hinv Hopen. cbv zeta.
  assert (Hclosed : data (confirm_close_invoice invoice_id db).2 !! invoice_id
                    = Some (Data.set_status true invoice)).
  { rewrite confirm_close_invoice_eq, Hinv, Hopen. apply lookup_insert_eq. }
  generalize dependent (confirm_close_invoice invoice_id db).2.
  intros db1 Hclosed. split_and!.
  - by rewrite confirm_close_invoice_eq, Hclosed.
  - unfold request_close_invoice. run. by rewrite Hclosed.
  - by apply get_invoice_found.
Qed.

Lemma close_twice_witness :
  let db1 := (confirm_close_invoice 1 Example.db).2 in
  let already :=
    HTTPException 400 (str (HTTPException 400 (Lit "Invoice is already closed"))) in
  confirm_close_invoice 1 db1 = (inl already, db1) ∧
  request_close_invoice 1 db1 = (inl already, db1) ∧
  get_invoice 1 db1 = (inr (Data.set_status true Example.I1), db1).
Proof. apply (close_twice Example.db 1 Example.I1); reflexivity. Defined.

(** [update_invoice] never updates anything: whatever the id and the body,
    it fails with status 400 and the store is as before, because
    [invoice.creator_name] raises on a [schemas.DataCreate] before the
    commit. *)
Theorem update_invoice_never_updates (db : DB) (invoice_id : Z)
    (invoice : DataCreate.t) :
  ∃ e, update_invoice invoice_id invoice db = (inl (HTTPException 400 (str e)), db).
Proof.
  unfold update_invoice, DataCreate_creator_name. run.
  destruct (data db !! invoice_id); by eexists.
Qed.

(** [delete_invoice] on an existing invoice returns it and removes exactly
    that row: the other invoices, the users and the rooms are untouched, so a
    room that listed the invoice still lists its id. *)
Theorem delete_invoice_frame (db : DB) (invoice_id : Z) (invoice : Data.t) :
  data db !! invoice_id = Some invoice →
  ∃ db',
    delete_invoice invoice_id db = (inr invoice, db') ∧
    data db' !! invoice_id = None ∧
    (∀ j, j ≠ invoice_id → data db' !! j = data db !! j) ∧
    rooms db' = rooms db ∧
    users db' = users db.
Proof.
  intros Hinv. unfold delete_invoice, delete_data_row. run. rewrite Hinv.
  eexists. split; [done|]. simpl. split_and!; try done.
  - apply lookup_delete_eq.
  - intros j Hj. by apply lookup_delete_ne.
Qed.

Lemma delete_invoice_frame_witness :
  ∃ db',
    delete_invoice 1 Example.db = (inr Example.I1, db') ∧
    data db' !! 1 = None ∧
    (∀ j, j ≠ 1 → data db' !! j = data Example.db !! j) ∧
    rooms db' = rooms Example.db ∧
    users db' = users Example.db.
Proof. apply (delete_invoice_frame Example.db 1 Example.I1). reflexivity. Defined.

Lemma resolvable_delete (db : DB) (invoice_id : Z) (ids : list Z) :
  resolvable (set_data (delete invoice_id) db) ids
  = resolvable db (filter (λ i, i ≠ invoice_id) ids).
Proof.
  induction ids as [|i ids IH]; [done|].
  rewrite filter_cons, resolvable_cons. simpl.
  destruct (decide (i ≠ invoice_id)) as [Hne|Heq].
  - rewrite resolvable_cons, lookup_delete_ne by done. by rewrite IH.
  - apply dec_stable in Heq as ->. by rewrite lookup_delete_eq.
Qed.

(** After [delete_invoice], the rooms that list the deleted id keep working:
    [get_invoice] on the id fails, while [get_total_invoices] of every room
    still succeeds and returns the float sum of the totals of the other
    invoices of the room. *)
Theorem delete_invoice_then_total (db : DB) (invoice_id room_id : Z)
    (invoice : Data.t) (room : Room.t) :
  data db !! invoice_id = Some invoice →
  rooms db !! room_id = Some room →
  let db' := (delete_invoice invoice_id db).2 in
  get_invoice invoice_id db' =
    (inl (HTTPException 400 (str (HTTPException 404 (Lit "Invoice not found")))),
     db') ∧
  get_room room_id db' =
    (inr {| view_name := Room.name room;
            view_expense_type := ExpenseType_value (Room.expense_type room);
            view_participants := Room.participants room;
            view_invoices := Room.invoices room |}, db') ∧
  get_total_invoices room_id db' =
    (inr (fsum (Data.total <$>
                  resolvable db (filter (λ i, i ≠ invoice_id) (Room.invoices room)))),
     db').
Proof.
  intros Hinv Hroom. cbv zeta.
  assert (Hdel : (delete_invoice invoice_id db).2 = set_data (delete invoice_id) db).
  { unfold delete_invoice, delete_data_row. run. by rewrite Hinv. }
  rewrite Hdel. split_and!.
  - apply get_invoice_not_found. apply lookup_delete_eq.
  - by apply get_room_found.
  - rewrite (get_total_invoices_eq _ room_id room) by done.
    unfold total_for_room. by rewrite resolvable_delete.
Qed.

Lemma delete_invoice_then_total_witness :
  let db' := (delete_invoice 1 Example.db).2 in
  get_invoice 1 db' =
    (inl (HTTPException 400 (str (HTTPException 404 (Lit "Invoice not found")))),
     db') ∧
  get_room 1 db' =
    (inr {| view_name := Room.name Example.R;
            view_expense_type := ExpenseType_value (Room.expense_type Example.R);
            view_participants := Room.participants Example.R;
            view_invoices := Room.invoices Example.R |}, db') ∧
  get_total_invoices 1 db' =
    (inr (fsum (Data.total <$>
                  resolvable Example.db
                    (filter (λ i, i ≠ 1) (Room.invoices Example.R)))),
     db').
Proof.
  apply (delete_invoice_then_total Example.db 1 1 Example.I1 Example.R);
    reflexivity.
Defined.

(** ** Deleting a room *)

(** [delete_room] on an existing room removes that room and nothing else:
    the other rooms, the users and all invoices stay (there is no cascade),
    so the invoices of the deleted room still resolve, and [get_room] on the
    id then raises 404. *)
Theorem delete_room_no_cascade (db : DB) (room_id : Z) (room : Room.t) :
  rooms db !! room_id = Some room →
  ∃ db',
    delete_room room_id db = (inr "Room deleted successfully"%string, db') ∧
    get_room room_id db' = (inl (HTTPException 404 (Lit "Room not found")), db') ∧
    (∀ j, j ≠ room_id → rooms db' !! j = rooms db !! j) ∧
    data db' = data db ∧
    users db' = users db ∧
    (∀ i invoice, data db !! i = Some invoice →
                  get_invoice i db' = (inr invoice, db')).
Proof.
  intros Hroom. unfold delete_room, delete_room_row. run. rewrite Hroom.
  eexists. split; [done|]. split_and!; try done.
  - apply get_room_not_found. apply lookup_delete_eq.
  - intros j Hj. by apply lookup_delete_ne.
  - intros i invoice Hi. by apply get_invoice_found.
Qed.

Lemma delete_room_no_cascade_witness :
  ∃ db',
    delete_room 1 Example.db = (inr "Room deleted successfully"%string, db') ∧
    get_room 1 db' = (inl (HTTPException 404 (Lit "Room not found")), db') ∧
    (∀ j, j ≠ 1 → rooms db' !! j = rooms Example.db !! j) ∧
    data db' = data Example.db ∧
    users db' = users Example.db ∧
    (∀ i invoice, data Example.db !! i = Some invoice →
                  get_invoice i db' = (inr invoice, db')).
Proof. apply (delete_room_no_cascade Example.db 1 Example.R). reflexivity. Defined.

(** ** More on the balances of a room *)





Lemma contribution_not_nil (k : key) (c : Z) (invoice : Data.t) :
  contribution k c invoice ≠ [] ↔
  Data.creator_id invoice = c ∧
  ∃ s, k = Str s ∧ s ∈ (Data.user_sums invoice).*1.
Proof.
  unfold contribution. case_decide as Hc; [|naive_solver].
  induction (Data.user_sums invoice) as [|[s v] items IH].
  - split; [done|]. intros (_ & s & _ & []%elem_of_nil).
  - rewrite filter_cons, fmap_cons. cbn [fst].
    destruct (decide (Str s = k)) as [<-|Hk].
    + split; [|done]. intros _. split; [done|]. exists s. split; [done|].
      by left.
    + rewrite IH. split.
      * intros (_ & s' & -> & Hin). split; [done|]. exists s'.
        split; [done|]. by right.
      * intros (_ & s' & -> & [->|Hin]%elem_of_cons); [done|]. eauto.
Qed.

(** The gross debts have an entry under a key and a creditor exactly when
    some invoice created by the creditor has that key in its [user_sums]:
    every key is a [str], and the key of the creator's own share is among
    them, since a [str] key never equals the [int] id of the creator. *)
Theorem aggregate_entry_iff (invoices : list Data.t) (k : key) (c : Z) :
  is_Some (entry (aggregate invoices) k c) ↔
  ∃ invoice s, invoice ∈ invoices ∧ Data.creator_id invoice = c ∧
               k = Str s ∧ s ∈ (Data.user_sums invoice).*1.
Proof.
  rewrite entry_aggregate.
  transitivity (contributions invoices k c ≠ []).
  { destruct (contributions invoices k c); split; intros H;
      first [done | by destruct H as [? [=]] | by eauto]. }
  induction invoices as [|invoice invoices IH].
  - split; [done|]. intros (? & ? & []%elem_of_nil & _).
  - rewrite contributions_cons.
    destruct (decide (contribution k c invoice = [])) as [Hnil|Hcons].
    + rewrite Hnil. cbn [app]. rewrite IH. split.
      * intros (inv & s & Hin & H). exists inv, s. rewrite elem_of_cons. eauto.
      * intros (inv & s & [->|Hin]%elem_of_cons & Hc & Hk & Hs); [|by eauto 6].
        assert (Hcons : contribution k c invoice ≠ []).
        { apply contribution_not_nil. eauto. }
        done.
    + split.
      * intros _. apply contribution_not_nil in Hcons as (Hc & s & Hk & Hs).
        exists invoice, s. rewrite elem_of_cons. eauto.
      * intros _ Happ. by apply app_eq_nil in Happ as [? _].
Qed.

Lemma aggregate_contributions_ext (l l' : list Data.t) :
  (∀ k c, contributions l k c = contributions l' k c) →
  aggregate l = aggregate l'.
Proof.
  intros Hcs. apply two_level_ext; [apply aggregate_no_empty_rows..|].
  intros k c. by rewrite !entry_aggregate, Hcs.
Qed.

(** A room whose invoice ids all fail to resolve (an empty list included)
    has total 0.0, balance 0.0 between any two users and the empty ledger. *)
Theorem room_without_invoices (db : DB) (room_id : Z) (room : Room.t) :
  rooms db !! room_id = Some room →
  (∀ i, i ∈ Room.invoices room → data db !! i = None) →
  get_total_invoices room_id db = (inr Float.zero, db) ∧
  (∀ u1 u2, get_balance_between_users_in_room room_id u1 u2 db
            = (inr Float.zero, db)) ∧
  get_balances_in_room room_id db = (inr ∅, db).
Proof.
  intros Hroom Hnone.
  assert (Hres : resolvable db (Room.invoices room) = []).
  { induction (Room.invoices room) as [|i ids IH]; [done|].
    rewrite resolvable_cons, (Hnone i) by (by left).
    apply IH. intros j Hj. apply Hnone. by right. }
  split_and!.
  - rewrite (get_total_invoices_eq _ _ _ Hroom). unfold total_for_room.
    by rewrite Hres.
  - intros u1 u2. rewrite (get_balance_between_users_in_room_eq _ _ _ _ _ Hroom).
    by rewrite Hres.
  - rewrite (get_balances_in_room_eq _ _ _ Hroom), Hres. do 2 f_equal.
    apply two_level_ext.
    + apply remove_empty_no_empty_rows.
    + intros a inner. by rewrite lookup_empty.
    + intros a b. rewrite entry_balances, entry_empty.
      case_decide as Hab; [|done]. destruct Hab as (_ & _ & _ & Hpos).
      unfold net in Hpos.
      change (aggregate []) with (∅ : gmap key (gmap Z float)) in Hpos.
      rewrite !debts_get_entry, !entry_empty in Hpos. discriminate Hpos.
Qed.

Lemma room_without_invoices_witness :
  get_total_invoices 3 Variant.db = (inr Float.zero, Variant.db) ∧
  (∀ u1 u2, get_balance_between_users_in_room 3 u1 u2 Variant.db
            = (inr Float.zero, Variant.db)) ∧
  get_balances_in_room 3 Variant.db = (inr ∅, Variant.db).
Proof.
  apply (room_without_invoices Variant.db 3 Variant.dangling); [reflexivity|].
  intros i. cbn [Room.invoices Variant.dangling].
  rewrite !elem_of_cons, elem_of_nil. by intros [->|[->|[]]].
Defined.



(** ** Totals by user *)

Lemma total_by_user_loop (db : DB) (u : Z) (ids : list Z) (acc : float) :
  fold_left (λ total_sum i,
               match (match data db !! i with
                      | Some d => if decide (Data.creator_id d = u) then Some d
                                  else None
                      | None => None
                      end) with
               | Some invoice => Float.add total_sum (Data.total invoice)
               | None => total_sum
               end) ids acc
  = fold_left Float.add
      (Data.total <$> filter (λ d, Data.creator_id d = u) (resolvable db ids)) acc.
Proof.
  revert acc. induction ids as [|i ids IH]; intros acc; [done|].
  rewrite resolvable_cons. simpl.
  destruct (data db !! i) as [d|]; [|apply IH].
  rewrite filter_cons. destruct (decide (Data.creator_id d = u)); simpl; apply IH.
Qed.

Lemma get_total_invoices_by_user_in_room_eq (db : DB) (room_id u : Z)
    (room : Room.t) :
  rooms db !! room_id = Some room →
  get_total_invoices_by_user_in_room room_id u db =
    (inr (fsum (Data.total <$> filter (λ d, Data.creator_id d = u)
                                 (resolvable db (Room.invoices room)))), db).
Proof.
  intros Hroom. unfold get_total_invoices_by_user_in_room. run. rewrite Hroom.
  erewrite for_each_pure with
    (g := λ db total_sum i,
            match (match data db !! i with
                   | Some d => if decide (Data.creator_id d = u) then Some d
                               else None
                   | None => None
                   end) with
            | Some invoice => Float.add total_sum (Data.total invoice)
            | None => total_sum
            end).
  - by rewrite total_by_user_loop.
  - intros a x. unfold query_data_created_by. run.
    destruct (data db !! x) as [d|]; [|done].
    by destruct (decide (Data.creator_id d = u)).
Qed.

Lemma filter_all {A} (P : A → Prop) `{∀ x, Decision (P x)} (l : list A) :
  (∀ x, x ∈ l → P x) → filter P l = l.
Proof.
  induction l as [|x l IH]; intros Hall; [done|].
  rewrite filter_cons, decide_True by (apply Hall; by left).
  f_equal. apply IH. intros y Hy. apply Hall. by right.
Qed.

Lemma filter_none {A} (P : A → Prop) `{∀ x, Decision (P x)} (l : list A) :
  (∀ x, x ∈ l → ¬ P x) → filter P l = [].
Proof.
  induction l as [|x l IH]; intros Hnone; [done|].
  rewrite filter_cons, decide_False by (apply Hnone; by left).
  apply IH. intros y Hy. apply Hnone. by right.
Qed.

(** For an existing room, [get_total_invoices_by_user_in_room] returns the
    float sum of [total] over the invoices of the room that resolve and were
    created by the user, skipping the others and the dangling ids without
    error.  It agrees with [get_total_invoices] when the user created every
    invoice of the room that resolves, and is 0.0 when he created none. *)
Theorem total_by_user_in_room (db : DB) (room_id u : Z) (room : Room.t) :
  rooms db !! room_id = Some room →
  let invoices := resolvable db (Room.invoices room) in
  get_total_invoices_by_user_in_room room_id u db =
    (inr (fsum (Data.total <$> filter (λ d, Data.creator_id d = u) invoices)), db) ∧
  ((∀ d, d ∈ invoices → Data.creator_id d = u) →
   get_total_invoices_by_user_in_room room_id u db = get_total_invoices room_id db) ∧
  ((∀ d, d ∈ invoices → Data.creator_id d ≠ u) →
   get_total_invoices_by_user_in_room room_id u db = (inr Float.zero, db)).
Proof.
  intros Hroom. cbv zeta.
  rewrite (get_total_invoices_by_user_in_room_eq _ _ _ _ Hroom).
  split_and!.
  - done.
  - intros Hall. rewrite (get_total_invoices_eq _ _ _ Hroom).
    unfold total_for_room. by rewrite filter_all.
  - intros Hnone. by rewrite filter_none.
Qed.

Lemma total_by_user_in_room_witness :
  let invoices := resolvable Example.db (Room.invoices Example.R2) in
  get_total_invoices_by_user_in_room 2 1 Example.db =
    (inr (fsum (Data.total <$> filter (λ d, Data.creator_id d = 1) invoices)),
     Example.db) ∧
  ((∀ d, d ∈ invoices → Data.creator_id d = 1) →
   get_total_invoices_by_user_in_room 2 1 Example.db
   = get_total_invoices 2 Example.db) ∧
  ((∀ d, d ∈ invoices → Data.creator_id d ≠ 1) →
   get_total_invoices_by_user_in_room 2 1 Example.db
   = (inr Float.zero, Example.db)).
Proof. apply (total_by_user_in_room Example.db 2 1 Example.R2). reflexivity. Defined.

(** *** The total of a user over the whole store *)

Lemma StronglySorted_filter {A} (R : relation A) (P : A → Prop)
    `{∀ x, Decision (P x)} (l : list A) :
  StronglySorted R l → StronglySorted R (filter P l).
Proof.
  induction 1 as [|x l Hl IH Hx]; [constructor|].
  rewrite filter_cons. case_decide; [|done].
  constructor; [done|]. rewrite Forall_forall in Hx. apply Forall_forall.
  intros y [_ Hy]%list_elem_of_filter. by apply Hx.
Qed.

Lemma filter_omap {A B} (P : B → Prop) `{∀ x, Decision (P x)}
    (f : A → option B) (l : list A) :
  filter P (omap f l)
  = omap (λ x, match f x with
               | Some y => if decide (P y) then Some y else None
               | None => None
               end) l.
Proof.
  induction l as [|x l IH]; [done|]. cbn [omap list_omap].
  destruct (f x) as [y|]; [|done].
  rewrite filter_cons. by destruct (decide (P y)); rewrite IH.
Qed.

Lemma omap_filter_is_Some {A B} (f : A → option B) (l : list A) :
  omap f (filter (λ x, is_Some (f x)) l) = omap f l.
Proof.
  induction l as [|x l IH]; [done|].
  rewrite filter_cons. cbn [omap list_omap].
  destruct (f x) as [y|] eqn:Hfx.
  - rewrite decide_True by eauto. cbn [omap list_omap]. by rewrite Hfx, IH.
  - rewrite decide_False; [done|]. by intros [? [=]].
Qed.

Lemma omap_ext_in {A B} (f g : A → option B) (l : list A) :
  (∀ x, x ∈ l → f x = g x) → omap f l = omap g l.
Proof.
  induction l as [|x l IH]; intros Hfg; [done|]. cbn [omap list_omap].
  rewrite (Hfg x) by (by left). rewrite IH; [done|].
  intros y Hy. apply Hfg. by right.
Qed.

Lemma sorted_keys_elem {A} (m : gmap Z A) (i : Z) :
  i ∈ merge_sort Z.le (map_to_list m).*1 ↔ is_Some (m !! i).
Proof.
  rewrite merge_sort_Permutation, list_elem_of_fmap. split.
  - intros ([j x] & -> & Hjx%elem_of_map_to_list). eauto.
  - intros [x Hx]. exists (i, x). split; [done|]. by apply elem_of_map_to_list.
Qed.

Lemma sorted_keys_NoDup {A} (m : gmap Z A) :
  NoDup (merge_sort Z.le (map_to_list m).*1).
Proof. rewrite merge_sort_Permutation. apply NoDup_fst_map_to_list. Qed.

(** The invoices of a store that were created by [u], in the order of their
    ids, are determined by the lookups restricted to the creator [u]. *)
Lemma rows_by_creator_ext (db db' : DB) (u : Z) :
  (∀ i, (query_data_created_by i u db).1 = (query_data_created_by i u db').1) →
  (query_data_by_creator u db).1 = (query_data_by_creator u db').1.
Proof.
  unfold query_data_created_by, query_data_by_creator. simpl.
  set (g := λ (d : DB) (i : Z),
         match data d !! i with
         | Some x => if decide (Data.creator_id x = u) then Some x else None
         | None => None
         end).
  intros Hg. assert (Hg' : ∀ i, g db i = g db' i).
  { intros i. specialize (Hg i). by injection Hg. }
  clear Hg. f_equal.
  rewrite !(filter_omap (λ d, Data.creator_id d = u)).
  change (omap (g db) (merge_sort Z.le (map_to_list (data db)).*1)
          = omap (g db') (merge_sort Z.le (map_to_list (data db')).*1)).
  rewrite <- (omap_filter_is_Some (g db)), <- (omap_filter_is_Some (g db')).
  assert (Hkeys :
    filter (λ i, is_Some (g db i)) (merge_sort Z.le (map_to_list (data db)).*1)
    = filter (λ i, is_Some (g db' i)) (merge_sort Z.le (map_to_list (data db')).*1)).
  { apply (StronglySorted_unique Z.le).
    - apply StronglySorted_filter, StronglySorted_merge_sort; apply _.
    - apply StronglySorted_filter, StronglySorted_merge_sort; apply _.
    - apply NoDup_Permutation.
      + apply NoDup_filter, sorted_keys_NoDup.
      + apply NoDup_filter, sorted_keys_NoDup.
      + intros i. rewrite !list_elem_of_filter, !sorted_keys_elem.
        assert (Hdom : ∀ d, is_Some (g d i) → is_Some (data d !! i)).
        { intros d. unfold g. destruct (data d !! i); [eauto|]. by intros [? [=]]. }
        rewrite Hg'. split; intros [Hsome _]; (split; [done|]).
        * by apply Hdom.
        * apply Hdom. by rewrite Hg'. }
  rewrite Hkeys. apply omap_ext_in. intros i _. apply Hg'.
Qed.

(** [get_total_invoices_by_user] never fails and never changes the store,
    also for an id that belongs to no user; its result is 0.0 when the user
    created no invoice, and it is the same in any two stores that hold the
    same invoices created by the user: invoices of other creators, rooms and
    users do not count. *)
Theorem total_by_user_own_invoices (db : DB) (u : Z) :
  (∃ total, get_total_invoices_by_user u db = (inr total, db)) ∧
  ((∀ i d, data db !! i = Some d → Data.creator_id d ≠ u) →
   get_total_invoices_by_user u db = (inr Float.zero, db)) ∧
  (∀ db',
     (∀ i, (query_data_created_by i u db).1 = (query_data_created_by i u db').1) →
     (get_total_invoices_by_user u db).1 = (get_total_invoices_by_user u db').1).
Proof.
  split_and!.
  - by eexists.
  - intros Hnone. unfold get_total_invoices_by_user, query_data_by_creator. run.
    rewrite filter_none; [done|].
    intros d (i & _ & Hd)%list_elem_of_omap. by apply (Hnone i).
  - intros db' Hsame. apply rows_by_creator_ext in Hsame.
    unfold get_total_invoices_by_user. run. simpl in Hsame.
    injection Hsame as Hsame. unfold query_data_by_creator in Hsame.
    simpl in Hsame. by rewrite Hsame.
Qed.

Lemma total_by_user_own_invoices_witness :
  get_total_invoices_by_user 3 Example.db = (inr Float.zero, Example.db).
Proof.
  apply (proj1 (proj2 (total_by_user_own_invoices Example.db 3))).
  intros i d. cbn [data Example.db].
  destruct (decide (1 = i)) as [<-|H1].
  { rewrite lookup_insert_eq. by intros [= <-]. }
  rewrite lookup_insert_ne by done.
  destruct (decide (2 = i)) as [<-|H2].
  { rewrite lookup_singleton_eq. by intros [= <-]. }
  by rewrite lookup_singleton_ne.
Defined.

(** ** Closing an invoice and the queries *)

Lemma resolvable_set_status (db : DB) (invoice_id : Z) (invoice : Data.t)
    (b : bool) (ids : list Z) :
  data db !! invoice_id = Some invoice →
  Forall2 (λ d' d, Data.total d' = Data.total d ∧
                   Data.user_sums d' = Data.user_sums d ∧
                   Data.creator_id d' = Data.creator_id d)
    (resolvable (set_data <[invoice_id := Data.set_status b invoice]> db) ids)
    (resolvable db ids).
Proof.
  intros Hinv. induction ids as [|i ids IH]; [constructor|].
  rewrite !resolvable_cons. cbn [data set_data].
  destruct (decide (invoice_id = i)) as [->|Hne].
  - rewrite lookup_insert_eq, Hinv. by constructor.
  - rewrite lookup_insert_ne by done.
    destruct (data db !! i); [by constructor|done].
Qed.

(** Closing an invoice changes no figure: after [confirm_close_invoice],
    whatever its outcome, the total of every room, the user's total in every
    room, the balance between any two users and the ledger of every room are
    what they were before.  Closed invoices keep counting. *)
Theorem close_keeps_queries (db : DB) (invoice_id room_id : Z) :
  let db' := (confirm_close_invoice invoice_id db).2 in
  (get_total_invoices room_id db').1 = (get_total_invoices room_id db).1 ∧
  (∀ u, (get_total_invoices_by_user_in_room room_id u db').1
        = (get_total_invoices_by_user_in_room room_id u db).1) ∧
  (∀ u1 u2, (get_balance_between_users_in_room room_id u1 u2 db').1
            = (get_balance_between_users_in_room room_id u1 u2 db).1) ∧
  (get_balances_in_room room_id db').1 = (get_balances_in_room room_id db).1.
Proof.
  cbv zeta. rewrite confirm_close_invoice_eq.
  destruct (data db !! invoice_id) as [invoice|] eqn:Hinv; [|done].
  destruct (Data.status invoice); [done|]. cbn [snd].
  set (db' := set_data <[invoice_id := Data.set_status true invoice]> db).
  destruct (rooms db !! room_id) as [room|] eqn:Hroom.
  - assert (Hroom' : rooms db' !! room_id = Some room) by done.
    pose proof (resolvable_set_status db invoice_id invoice true
                  (Room.invoices room) Hinv) as Hres.
    fold db' in Hres.
    rewrite (get_total_invoices_eq _ _ _ Hroom),
      (get_total_invoices_eq _ _ _ Hroom').
    split_and!.
    + unfold total_for_room. cbn [fst]. do 2 f_equal.
      induction Hres as [|d' d l' l (Ht & _ & _) _ IH]; [done|].
      cbn [fmap list_fmap]. by rewrite Ht, IH.
    + intros u. rewrite (get_total_invoices_by_user_in_room_eq _ _ _ _ Hroom),
        (get_total_invoices_by_user_in_room_eq _ _ _ _ Hroom').
      cbn [fst]. do 2 f_equal.
      induction Hres as [|d' d l' l (Ht & _ & Hc) _ IH]; [done|].
      rewrite !filter_cons, Hc. case_decide; [|done].
      cbn [fmap list_fmap]. by rewrite Ht, IH.
    + intros u1 u2.
      rewrite (get_balance_between_users_in_room_eq _ _ _ _ _ Hroom),
        (get_balance_between_users_in_room_eq _ _ _ _ _ Hroom').
      cbn [fst].
      assert (Hshare : ∀ k,
        omap (λ d, dict_get (Data.user_sums d) k)
             (resolvable db' (Room.invoices room))
        = omap (λ d, dict_get (Data.user_sums d) k)
               (resolvable db (Room.invoices room))).
      { intros k. induction Hres as [|d' d l' l (_ & Hs & _) _ IH]; [done|].
        cbn [omap list_omap]. by rewrite Hs, IH. }
      by rewrite !Hshare.
    + rewrite (get_balances_in_room_eq _ _ _ Hroom),
        (get_balances_in_room_eq _ _ _ Hroom').
      cbn [fst]. do 3 f_equal. apply aggregate_contributions_ext. intros k c.
      induction Hres as [|d' d l' l (_ & Hs & Hc) _ IH]; [done|].
      rewrite !contributions_cons, IH. unfold contribution. by rewrite Hs, Hc.
  - assert (Hroom' : rooms db' !! room_id = None) by done.
    split_and!; intros;
      unfold get_total_invoices, get_total_invoices_by_user_in_room,
        get_balance_between_users_in_room, get_balances_in_room; run;
      by rewrite ?Hroom', ?Hroom.
Qed.

(** ** Loops that may fail *)

Lemma for_each_inv {A B} (I : list B → A → DB → Prop) (body : A → B → M A)
    (l : list B) (acc : A) (db : DB) (r : A) (db' : DB) :
  I [] acc db →
  (∀ pre x a d a' d', I pre a d → body a x d = (inr a', d') → I (pre ++ [x]) a' d') →
  for_each l acc body db = (inr r, db') →
  I l r db'.
Proof.
  intros Hinit Hstep.
  assert (Hgen : ∀ pre acc db,
            I pre acc db → for_each l acc body db = (inr r, db') → I (pre ++ l) r db').
  { clear acc db Hinit. induction l as [|x l IH]; intros pre acc db Hpre; simpl.
    - intros [= <- <-]. by rewrite app_nil_r.
    - unfold mbind, M_bind.
      destruct (body acc x db) as [[e|acc1] db1] eqn:Hbody; [done|].
      intros Hloop. rewrite cons_middle, app_assoc.
      apply (IH _ acc1 db1); [|done]. by apply (Hstep pre x acc db). }
  apply (Hgen [] acc db Hinit).
Qed.

Lemma for_each_error {A B} (Q : exn → Prop) (body : A → B → M A)
    (l : list B) (acc : A) (db : DB) (e : exn) (db' : DB) :
  (∀ a x d e d', body a x d = (inl e, d') → Q e) →
  for_each l acc body db = (inl e, db') → Q e.
Proof.
  intros Hbody. revert acc db. induction l as [|x l IH]; intros acc db; simpl.
  - done.
  - unfold mbind, M_bind.
    destruct (body acc x db) as [[e1|acc1] db1] eqn:Hstep.
    + intros [= <- _]. by apply (Hbody acc x db e1 db1).
    + apply IH.
Qed.

(** ** What a failed [create_invoice] leaves behind *)

Lemma ensure_user_step (us : list Z) (x : Z) (d : DB) (r : exn + list Z)
    (d' : DB) :
  ensure_user us x d = (r, d') →
  (∀ u usr, users d !! u = Some usr → users d' !! u = Some usr) ∧
  (∀ e, r = inl e → e = IntegrityError) ∧
  (∀ us', r = inr us' → is_Some (users d' !! x)).
Proof.
  unfold ensure_user. run. destruct (users d !! x) as [usr|] eqn:Hx.
  - intros [= <- <-]. split_and!; [done|done|]. intros _ _. eauto.
  - unfold add_user. destruct (existsb _ _).
    + intros [= <- <-]. split_and!; [done| |done]. by intros e [= <-].
    + intros [= <- <-]. simpl. split_and!.
      * intros u usr Hu. rewrite lookup_insert_ne; [done|]. congruence.
      * done.
      * intros _ _. rewrite lookup_insert_eq. eauto.
Qed.

(** [create_invoice] with a creator that is no user fails with 404 "Creator
    not found" and changes nothing.  In every case the users that existed
    are left as they were; and when the call gets as far as
    [invoice.room_id], every user id of [user_sums] has become a user that
    [get_user] finds, although no invoice was created. *)
Theorem create_invoice_residue (invoice : DataCreate.t) (db : DB) :
  (users db !! DataCreate.creator_id invoice = None →
   create_invoice invoice db =
     (inl (HTTPException 404 (Lit "Creator not found")), db)) ∧
  (∀ u usr, users db !! u = Some usr →
            users (create_invoice invoice db).2 !! u = Some usr) ∧
  ((create_invoice invoice db).1 = inl (AttributeError "room_id") →
   ∀ u, is_Some (DataCreate.user_sums invoice !! u) →
        ∃ usr, get_user u (create_invoice invoice db).2
               = (inr usr, (create_invoice invoice db).2)).
Proof.
  unfold create_invoice, create_invoice_with, DataCreate_room_id.
  unfold mbind, M_bind, query_user, raise. cbv beta.
  destruct (users db !! DataCreate.creator_id invoice) as [creator|] eqn:Hcreator.
  2: { split_and!; [done|done|]. intros [=]. }
  set (user_ids := (map_to_list (DataCreate.user_sums invoice)).*1).
  destruct (for_each user_ids [] ensure_user db) as [[e|us] db1] eqn:Hloop.
  - split_and!; [done| |].
    + pose proof (for_each_preserves
        (λ d, ∀ u usr, users db !! u = Some usr → users d !! u = Some usr)
        ensure_user user_ids [] db) as Hpres.
      rewrite Hloop in Hpres. apply Hpres; [|done].
      intros a x d Hd u usr Hu.
      destruct (ensure_user a x d) as [r d'] eqn:Hstep.
      apply ensure_user_step in Hstep as (Hmono & _ & _). apply Hmono, Hd, Hu.
    + cbn [fst]. intros [= ->].
      apply (for_each_error (λ e, e = IntegrityError)) in Hloop; [done|].
      intros a x d e d' Hstep.
      by apply ensure_user_step in Hstep as (_ & He & _); apply He.
  - apply (for_each_inv
             (λ pre _ d, (∀ u usr, users db !! u = Some usr → users d !! u = Some usr)
                         ∧ ∀ u, u ∈ pre → is_Some (users d !! u))) in Hloop.
    + destruct Hloop as [Hmono Hall]. split_and!; [done|done|].
      intros _ u [amount Hu]. cbn [snd].
      destruct (Hall u) as [usr Husr].
      { apply list_elem_of_fmap. exists (u, amount). split; [done|].
        by apply elem_of_map_to_list. }
      exists usr. unfold get_user. run. by rewrite Husr.
    + split; [done|]. by intros u ?%elem_of_nil.
    + intros pre x a d a' d' [Hmono Hall] Hstep.
      apply ensure_user_step in Hstep as (Hmono' & _ & Hx). split.
      * intros u usr Hu. by apply Hmono', Hmono.
      * intros u [Hu| ->%list_elem_of_singleton]%elem_of_app.
        -- destruct (Hall u Hu) as [usr Husr]. exists usr. by apply Hmono'.
        -- by apply (Hx a').
Qed.

Lemma create_invoice_residue_witness :
  ∃ usr, get_user 4 (create_invoice Request.new_invoice Example.db).2
         = (inr usr, (create_invoice Request.new_invoice Example.db).2).
Proof.
  apply (proj2 (proj2 (create_invoice_residue Request.new_invoice Example.db))).
  - vm_compute. reflexivity.
  - exists (Float.of_Z 25). reflexivity.
Defined.

(** ** Updating a room *)

(** The part of [update_room] up to the assignment of the participants. *)
Lemma update_room_eq (sqlite_integer : string → option Z) (db : DB)
    (room_id : Z) (room : RoomUpdate.t) (db_room : Room.t) :
  rooms db !! room_id = Some db_room →
  let r0 :=
    match RoomUpdate.expense_type room with
    | Some t => room_set_expense_type t
    | None => id
    end (match RoomUpdate.name room with
         | Some name => room_set_name name db_room
         | None => db_room
         end) in
  let rest := λ r : Room.t,
    match RoomUpdate.invoices room with
    | Some ids =>
        match for_each ids (loaded (room_set_invoices ids r))
                       (sync_invoice sqlite_integer room_id) db with
        | (inl e, d) => (inl e, d)
        | (inr p, d1) =>
            if sortable (Pending.changed p)
            then (inr (Pending.room p),
                  set_rooms <[room_id := Pending.room p]> d1)
            else (inl InvalidRequestError, d1)
        end
    | None => (inr r, set_rooms <[room_id := r]> db)
    end in
  update_room sqlite_integer room_id room db =
    match RoomUpdate.participant_ids room with
    | Some ids =>
        match filter (λ i, i ∈ ids) (merge_sort Z.le (map_to_list (users db)).*1) with
        | [] => (inl (HTTPException 400 (Lit "Participants not found")), db)
        | u :: us => rest (room_set_participants (u :: us) r0)
        end
    | None => rest r0
    end.
Proof.
  intros Hroom. cbv zeta. unfold update_room.
  unfold mbind at 1. unfold M_bind at 1. unfold query_room at 1. rewrite Hroom.
  destruct (RoomUpdate.expense_type room), (RoomUpdate.name room),
    (RoomUpdate.participant_ids room) as [ids|], (RoomUpdate.invoices room);
    unfold commit_pending, commit_room, query_users_in; run;
    try destruct (filter _ _) as [|u us]; try done;
    try (destruct (for_each _ _ _ db) as [[err|p] d1]; [done|];
         by destruct (sortable (Pending.changed p))).
Qed.

(** [update_room] with a list of participant ids none of which is a user
    (the empty list included) fails with 400 "Participants not found" and
    changes nothing: a new name or type sent in the same request is lost. *)
Theorem update_room_participants_not_found
    (sqlite_integer : string → option Z) (db : DB) (room_id : Z)
    (room : RoomUpdate.t) (db_room : Room.t) (ids : list Z) :
  rooms db !! room_id = Some db_room →
  RoomUpdate.participant_ids room = Some ids →
  (∀ i, i ∈ ids → users db !! i = None) →
  update_room sqlite_integer room_id room db =
    (inl (HTTPException 400 (Lit "Participants not found")), db).
Proof.
  intros Hroom Hids Hnone. rewrite (update_room_eq _ _ _ _ _ Hroom), Hids.
  rewrite filter_none; [done|].
  intros i [usr Hi]%sorted_keys_elem Hin. rewrite (Hnone i Hin) in Hi. done.
Qed.

Lemma update_room_participants_not_found_witness :
  update_room decimal_integer 5 Update.nobody Update.db =
    (inl (HTTPException 400 (Lit "Participants not found")), Update.db).
Proof.
  apply (update_room_participants_not_found decimal_integer Update.db 5
           Update.nobody Update.empty_room [8; 9]); [reflexivity..|].
  intros i. rewrite !elem_of_cons, elem_of_nil. by intros [->|[->|[]]].
Defined.

(** [update_room] with participant ids and no invoice list replaces the
    participants of the room by the users that exist among the ids: ids that
    belong to no user are dropped without error, as long as one id does
    belong to a user.  The invoices of the room are kept. *)
Theorem update_room_replaces_participants
    (sqlite_integer : string → option Z) (db : DB) (room_id : Z)
    (room : RoomUpdate.t) (db_room : Room.t) (ids : list Z) (u0 : Z) :
  rooms db !! room_id = Some db_room →
  RoomUpdate.participant_ids room = Some ids →
  RoomUpdate.invoices room = None →
  u0 ∈ ids → is_Some (users db !! u0) →
  ∃ r,
    update_room sqlite_integer room_id room db
    = (inr r, set_rooms <[room_id := r]> db) ∧
    (∀ u, u ∈ Room.participants r ↔ u ∈ ids ∧ is_Some (users db !! u)) ∧
    Room.invoices r = Room.invoices db_room.
Proof.
  intros Hroom Hids Hinv Hu0 Husr.
  rewrite (update_room_eq _ _ _ _ _ Hroom), Hids, Hinv.
  pose proof (λ u, list_elem_of_filter (λ i, i ∈ ids)
                     (merge_sort Z.le (map_to_list (users db)).*1) u) as Hfilter.
  destruct (filter _ _) as [|u us].
  - destruct (Hfilter u0) as [_ Hin].
    apply elem_of_nil in Hin; [done|]. split; [done|]. by apply sorted_keys_elem.
  - eexists. split; [done|]. split.
    + intros v. cbn [Room.participants room_set_participants].
      rewrite Hfilter, sorted_keys_elem. tauto.
    + by destruct (RoomUpdate.expense_type room), (RoomUpdate.name room).
Qed.

Lemma update_room_replaces_participants_witness :
  ∃ r,
    update_room decimal_integer 5 Update.participants Update.db
    = (inr r, set_rooms <[5 := r]> Update.db) ∧
    (∀ u, u ∈ Room.participants r ↔ u ∈ [9; 2] ∧ is_Some (users Update.db !! u)) ∧
    Room.invoices r = Room.invoices Update.empty_room.
Proof.
  apply (update_room_replaces_participants decimal_integer Update.db 5
           Update.participants Update.empty_room [9; 2] 2); [reflexivity..| |].
  - rewrite !elem_of_cons. auto.
  - exists {| User.name := "User 2" |}. reflexivity.
Defined.

(** [update_room] without participant ids and without invoices changes the
    name and the type that the request gives, keeps the rest of the room, and
    [get_room] then returns the room as updated. *)
Theorem update_room_rename (sqlite_integer : string → option Z) (db : DB)
    (room_id : Z) (room : RoomUpdate.t) (db_room : Room.t) :
  rooms db !! room_id = Some db_room →
  RoomUpdate.participant_ids room = None →
  RoomUpdate.invoices room = None →
  ∃ r db',
    update_room sqlite_integer room_id room db = (inr r, db') ∧
    Room.name r = default (Room.name db_room) (RoomUpdate.name room) ∧
    Room.expense_type r
      = default (Room.expense_type db_room) (RoomUpdate.expense_type room) ∧
    Room.participants r = Room.participants db_room ∧
    Room.invoices r = Room.invoices db_room ∧
    get_room room_id db' =
      (inr {| view_name := Room.name r;
              view_expense_type := ExpenseType_value (Room.expense_type r);
              view_participants := Room.participants r;
              view_invoices := Room.invoices r |}, db').
Proof.
  intros Hroom Hids Hinv. rewrite (update_room_eq _ _ _ _ _ Hroom), Hids, Hinv.
  eexists _, _. split; [done|]. split_and!.
  - by destruct (RoomUpdate.expense_type room), (RoomUpdate.name room).
  - by destruct (RoomUpdate.expense_type room), (RoomUpdate.name room).
  - by destruct (RoomUpdate.expense_type room), (RoomUpdate.name room).
  - by destruct (RoomUpdate.expense_type room), (RoomUpdate.name room).
  - apply get_room_found. apply lookup_insert_eq.
Qed.

Lemma update_room_rename_witness :
  ∃ r db',
    update_room decimal_integer 5 Update.rename Update.db = (inr r, db') ∧
    Room.name r = default (Room.name Update.empty_room)
                          (RoomUpdate.name Update.rename) ∧
    Room.expense_type r
      = default (Room.expense_type Update.empty_room)
                (RoomUpdate.expense_type Update.rename) ∧
    Room.participants r = Room.participants Update.empty_room ∧
    Room.invoices r = Room.invoices Update.empty_room ∧
    get_room 5 db' =
      (inr {| view_name := Room.name r;
              view_expense_type := ExpenseType_value (Room.expense_type r);
              view_participants := Room.participants r;
              view_invoices := Room.invoices r |}, db').
Proof.
  apply (update_room_rename decimal_integer Update.db 5 Update.rename
           Update.empty_room);
    reflexivity.
Defined.

Lemma loaded_members_listed (sqlite_integer : string → option Z) (r : Room.t) :
  members_listed sqlite_integer (loaded r).
Proof.
  intros k. cbn [loaded Pending.members Pending.room].
  intros (z & -> & Hz)%list_elem_of_fmap. by exists z.
Qed.

(** One step of the synchronisation: what a successful [sync_user] keeps and
    what it establishes. *)
Lemma sync_user_post (sqlite_integer : string → option Z) (room_id : Z)
    (p : Pending.t) (x : string) (d : DB) (p' : Pending.t) (d' : DB) :
  members_listed sqlite_integer p →
  sync_user sqlite_integer room_id p x d = (inr p', d') →
  members_listed sqlite_integer p' ∧
  Room.invoices (Pending.room p') = Room.invoices (Pending.room p) ∧
  data d' = data d ∧
  (∀ u, u ∈ Room.participants (Pending.room p)
        → u ∈ Room.participants (Pending.room p')) ∧
  (∀ u, is_Some (users d !! u) → is_Some (users d' !! u)) ∧
  ∃ u, sqlite_integer x = Some u ∧ u ∈ Room.participants (Pending.room p') ∧
       is_Some (users d' !! u).
Proof.
  intros Hlisted. unfold sync_user, query_user_by_key, add_user_by_key. run.
  assert (Hstep : ∀ (u : Z) (ident : key) (p0 : Pending.t) (d1 : DB),
    members_listed sqlite_integer p0 →
    Pending.room p0 = Pending.room p →
    key_id sqlite_integer ident = Some u →
    sqlite_integer x = Some u →
    data d1 = data d →
    (∀ v, is_Some (users d !! v) → is_Some (users d1 !! v)) →
    is_Some (users d1 !! u) →
    ((if decide (ident ∈ Pending.members p0) then mret p0
      else mret {| Pending.room :=
                     room_set_participants
                       (Room.participants (Pending.room p0) ++ [u])
                       (Pending.room p0);
                   Pending.members := Pending.members p0 ++ [ident];
                   Pending.changed := Pending.changed p0 ++ [ident] |})
       : M Pending.t) d1
    = (inr p', d') →
    members_listed sqlite_integer p' ∧
    Room.invoices (Pending.room p') = Room.invoices (Pending.room p) ∧
    data d' = data d ∧
    (∀ v, v ∈ Room.participants (Pending.room p)
          → v ∈ Room.participants (Pending.room p')) ∧
    (∀ v, is_Some (users d !! v) → is_Some (users d' !! v)) ∧
    ∃ v, sqlite_integer x = Some v ∧ v ∈ Room.participants (Pending.room p') ∧
         is_Some (users d' !! v)).
  { intros u ident p0 d1 Hlisted0 Hroom Hident Hx Hdata Husers Hu.
    destruct (decide (ident ∈ Pending.members p0)) as [Hin|Hin];
      intros [= <- <-]; cbn [mret M_ret].
    - split_and!; try done; [by rewrite Hroom..|].
      exists u. split; [done|]. split; [|done].
      destruct (Hlisted0 ident Hin) as (z & Hz & Hzin). congruence.
    - cbn [Pending.members Pending.room Room.participants Room.invoices
           room_set_participants]. rewrite Hroom.
      split_and!; try done.
      + intros k. cbn [Pending.members Pending.room Room.participants
                       room_set_participants].
        intros [Hk| ->%list_elem_of_singleton]%elem_of_app.
        * destruct (Hlisted0 k Hk) as (z & Hz & Hzin). exists z.
          split; [done|]. apply elem_of_app. left. by rewrite <- Hroom.
        * exists u. split; [done|]. apply elem_of_app. right. by left.
      + intros v Hv. apply elem_of_app. by left.
      + exists u. split; [done|]. split; [|done].
        apply elem_of_app. right. by left. }
  destruct (sqlite_integer x) as [z|] eqn:Hx.
  - destruct (decide (is_Some (users d !! z))) as [Hz|Hz].
    + by apply (Hstep z (Int z) p d).
    + destruct (sortable (Pending.changed p)); [|done].
      unfold add_user. destruct (existsb _ _); [done|]. cbn [fst snd].
      apply (Hstep z (Str x) (loaded (Pending.room p))); try done.
      * apply loaded_members_listed.
      * intros v Hv. cbn [users set_users set_rooms].
        rewrite lookup_insert. by case_decide.
      * cbn [users set_users set_rooms]. by rewrite lookup_insert_eq.
  - by destruct (sortable (Pending.changed p)).
Qed.

Lemma sync_users_post (sqlite_integer : string → option Z) (room_id : Z)
    (l : list string) (p : Pending.t) (d : DB) (p' : Pending.t) (d' : DB) :
  members_listed sqlite_integer p →
  for_each l p (sync_user sqlite_integer room_id) d = (inr p', d') →
  members_listed sqlite_integer p' ∧
  Room.invoices (Pending.room p') = Room.invoices (Pending.room p) ∧
  data d' = data d ∧
  (∀ u, u ∈ Room.participants (Pending.room p)
        → u ∈ Room.participants (Pending.room p')) ∧
  (∀ u, is_Some (users d !! u) → is_Some (users d' !! u)) ∧
  (∀ s, s ∈ l →
        ∃ u, sqlite_integer s = Some u ∧
             u ∈ Room.participants (Pending.room p') ∧ is_Some (users d' !! u)).
Proof.
  revert p d. induction l as [|x l IH]; intros p d Hlisted; simpl.
  - intros [= <- <-]. split_and!; try done. by intros s ?%elem_of_nil.
  - unfold mbind, M_bind.
    destruct (sync_user sqlite_integer room_id p x d) as [[e|p1] d1] eqn:Hstep;
      [done|].
    intros Hloop.
    apply sync_user_post in Hstep as (Hl1 & Hi1 & Hd1 & Hp1 & Hu1 & Hx1); [|done].
    apply IH in Hloop as (Hl2 & Hi2 & Hd2 & Hp2 & Hu2 & Hl); [|done].
    split_and!; try congruence; try (by auto).
    intros s [->|Hs]%elem_of_cons; [|by apply Hl].
    destruct Hx1 as (u & Hu & Hin & Hsome). exists u. auto.
Qed.

Lemma sync_invoice_post (sqlite_integer : string → option Z) (room_id : Z)
    (p : Pending.t) (i : Z) (d : DB) (p' : Pending.t) (d' : DB) :
  members_listed sqlite_integer p →
  sync_invoice sqlite_integer room_id p i d = (inr p', d') →
  members_listed sqlite_integer p' ∧
  Room.invoices (Pending.room p') = Room.invoices (Pending.room p) ∧
  data d' = data d ∧
  (∀ u, u ∈ Room.participants (Pending.room p)
        → u ∈ Room.participants (Pending.room p')) ∧
  (∀ u, is_Some (users d !! u) → is_Some (users d' !! u)) ∧
  (∀ invoice s, data d !! i = Some invoice →
                s ∈ (Data.user_sums invoice).*1 →
                ∃ u, sqlite_integer s = Some u ∧
                     u ∈ Room.participants (Pending.room p') ∧
                     is_Some (users d' !! u)).
Proof.
  intros Hlisted. unfold sync_invoice. run.
  destruct (data d !! i) as [invoice|].
  - intros (Hl & Hi & Hd & Hp & Hu & Hall)%sync_users_post; [|done].
    split_and!; try done. intros ? s [= <-]. apply Hall.
  - intros [= <- <-]. by split_and!.
Qed.

(** When [update_room] succeeds on a request with an invoice list, the room
    is stored with that list, and every key of [user_sums] in an invoice of
    the list that resolves denotes a user that is a participant of the room
    and a user of the store: the users that were missing have been
    created. *)
Theorem update_room_syncs_participants (sqlite_integer : string → option Z)
    (db db' : DB) (room_id : Z) (room : RoomUpdate.t) (ids : list Z)
    (r : Room.t) :
  update_room sqlite_integer room_id room db = (inr r, db') →
  RoomUpdate.invoices room = Some ids →
  rooms db' !! room_id = Some r ∧
  Room.invoices r = ids ∧
  ∀ i invoice s,
    i ∈ ids → data db' !! i = Some invoice →
    s ∈ (Data.user_sums invoice).*1 →
    ∃ u, sqlite_integer s = Some u ∧ u ∈ Room.participants r ∧
         is_Some (users db' !! u).
Proof.
  intros Hupdate Hids.
  destruct (rooms db !! room_id) as [db_room|] eqn:Hroom.
  2: { revert Hupdate. unfold update_room. run. by rewrite Hroom. }
  rewrite (update_room_eq _ _ _ _ _ Hroom), Hids in Hupdate.
  cbv zeta in Hupdate.
  assert (Hrest : ∀ r0,
    match for_each ids (loaded (room_set_invoices ids r0))
                   (sync_invoice sqlite_integer room_id) db with
    | (inl e, d) => (inl e, d)
    | (inr p, d1) =>
        if sortable (Pending.changed p)
        then (inr (Pending.room p), set_rooms <[room_id := Pending.room p]> d1)
        else (inl InvalidRequestError, d1)
    end = (inr r, db') →
    rooms db' !! room_id = Some r ∧ Room.invoices r = ids ∧
    ∀ i invoice s,
      i ∈ ids → data db' !! i = Some invoice →
      s ∈ (Data.user_sums invoice).*1 →
      ∃ u, sqlite_integer s = Some u ∧ u ∈ Room.participants r ∧
           is_Some (users db' !! u)).
  { clear Hupdate. intros r0.
    destruct (for_each ids _ _ db) as [[e|p] d1] eqn:Hloop; [done|].
    destruct (sortable (Pending.changed p)); [|done].
    intros [= <- <-].
    apply (for_each_inv
      (λ pre a d, members_listed sqlite_integer a ∧
         Room.invoices (Pending.room a) = ids ∧ data d = data db ∧
         ∀ i invoice s, i ∈ pre → data db !! i = Some invoice →
           s ∈ (Data.user_sums invoice).*1 →
           ∃ u, sqlite_integer s = Some u ∧
                u ∈ Room.participants (Pending.room a) ∧
                is_Some (users d !! u))) in Hloop.
    - destruct Hloop as (_ & Hinv & Hdata & Hall). split_and!.
      + apply lookup_insert_eq.
      + done.
      + intros i invoice s Hi Hlookup Hs. cbn [data users set_rooms] in *.
        rewrite Hdata in Hlookup. by apply (Hall i invoice s).
    - split_and!; [|done|done|by intros i invoice s ?%elem_of_nil].
      apply loaded_members_listed.
    - intros pre x a d a' d' (Hlisted & Hinv & Hdata & Hall) Hstep.
      apply sync_invoice_post in Hstep as (Hl & Hi & Hd & Hp & Hu & Hx);
        [|done].
      split_and!; [done|congruence|congruence|].
      intros i invoice s [Hpre| ->%list_elem_of_singleton]%elem_of_app
        Hlookup Hs.
      + destruct (Hall i invoice s Hpre Hlookup Hs) as (u & Hsu & Hin & Hsome).
        exists u. auto.
      + apply (Hx invoice); [|done]. by rewrite Hdata. }
  destruct (RoomUpdate.participant_ids room) as [pids|].
  - destruct (filter _ _) as [|u us]; [done|]. by apply Hrest in Hupdate.
  - by apply Hrest in Hupdate.
Qed.

Lemma update_room_syncs_participants_witness :
  rooms (update_room decimal_integer 5 Update.attach Update.db).2 !! 5
    = Some (room_set_participants [2; 3; 1]
              (room_set_invoices [1; 9; 2] Update.empty_room)) ∧
  Room.invoices (room_set_participants [2; 3; 1]
                   (room_set_invoices [1; 9; 2] Update.empty_room)) = [1; 9; 2] ∧
  ∀ i invoice s,
    i ∈ [1; 9; 2] →
    data (update_room decimal_integer 5 Update.attach Update.db).2 !! i
      = Some invoice →
    s ∈ (Data.user_sums invoice).*1 →
    ∃ u, decimal_integer s = Some u ∧
         u ∈ Room.participants (room_set_participants [2; 3; 1]
                                  (room_set_invoices [1; 9; 2] Update.empty_room)) ∧
         is_Some (users (update_room decimal_integer 5 Update.attach Update.db).2
                    !! u).
Proof.
  apply (update_room_syncs_participants decimal_integer Update.db _ 5
           Update.attach [1; 9; 2]).
  - vm_compute. reflexivity.
  - reflexivity.
Defined.

(** Whatever its outcome, [update_room] changes no invoice, leaves every
    other room as it was and keeps every user that existed unchanged: it only
    ever adds users and rewrites the one room. *)
Theorem update_room_frame (sqlite_integer : string → option Z) (db : DB)
    (room_id : Z) (room : RoomUpdate.t) :
  let db' := (update_room sqlite_integer room_id room db).2 in
  data db' = data db ∧
  (∀ j, j ≠ room_id → rooms db' !! j = rooms db !! j) ∧
  (∀ u usr, users db !! u = Some usr → users db' !! u = Some usr).
Proof.
  cbv zeta.
  set (P := λ d : DB,
         data d = data db ∧
         (∀ j, j ≠ room_id → rooms d !! j = rooms db !! j) ∧
         (∀ u usr, users db !! u = Some usr → users d !! u = Some usr)).
  assert (HP0 : P db) by done.
  assert (Hcommit : ∀ r d, P d → P (set_rooms <[room_id := r]> d)).
  { intros r d (Hd & Hr & Hu). split_and!; [done| |done].
    intros j Hj. cbn [rooms set_rooms]. rewrite lookup_insert_ne by done. auto. }
  assert (Huser : ∀ a x d, P d → P (sync_user sqlite_integer room_id a x d).2).
  { intros a x d HPd. unfold sync_user, query_user_by_key, add_user_by_key. run.
    destruct (sqlite_integer x) as [z|] eqn:Hx.
    - destruct (decide (is_Some (users d !! z))) as [Hz|Hz].
      + cbn [mret M_ret]. by case_decide.
      + destruct (sortable (Pending.changed a)); [|done].
        unfold add_user. destruct (existsb _ _); [done|]. cbn [fst snd].
        assert (P (set_rooms <[room_id := Pending.room a]>
                     (set_users <[z := {| User.name := ("User " ++ x)%string |}]>
                        d))).
        { apply Hcommit. destruct HPd as (Hd & Hr & Hu).
          split_and!; [done|done|].
          intros u usr Husr. cbn [users set_users].
          rewrite lookup_insert_ne; [by apply Hu|]. intros ->.
          apply Hu in Husr. destruct Hz. eauto. }
        by case_decide.
    - by destruct (sortable (Pending.changed a)). }
  assert (Hinvoice : ∀ a x d,
            P d → P (sync_invoice sqlite_integer room_id a x d).2).
  { intros a x d HPd. unfold sync_invoice. run.
    destruct (data d !! x) as [invoice|]; [|done].
    by apply (for_each_preserves P). }
  destruct (rooms db !! room_id) as [db_room|] eqn:Hroom.
  2: { unfold update_room. run. by rewrite Hroom. }
  rewrite (update_room_eq _ _ _ _ _ Hroom). cbv zeta.
  assert (Hrest : ∀ r0,
    P (match RoomUpdate.invoices room with
       | Some ids =>
           match for_each ids (loaded (room_set_invoices ids r0))
                          (sync_invoice sqlite_integer room_id) db with
           | (inl e, d) => (inl e, d)
           | (inr p, d1) =>
               if sortable (Pending.changed p)
               then (inr (Pending.room p),
                     set_rooms <[room_id := Pending.room p]> d1)
               else (inl InvalidRequestError, d1)
           end
       | None => (inr r0, set_rooms <[room_id := r0]> db)
       end).2).
  { intros r0. destruct (RoomUpdate.invoices room) as [ids|].
    - pose proof (for_each_preserves P (sync_invoice sqlite_integer room_id) ids
                    (loaded (room_set_invoices ids r0)) db Hinvoice HP0) as Hloop.
      destruct (for_each ids _ _ db) as [[e|p] d1]; [done|].
      destruct (sortable (Pending.changed p)); [|done]. by apply Hcommit.
    - by apply Hcommit. }
  destruct (RoomUpdate.participant_ids room) as [pids|]; [|apply Hrest].
  destruct (filter _ _) as [|u us]; [done|apply Hrest].
Qed.
